(** * The prediction helper of the terminal

    A shallow embedding of
    [gamestonk_terminal/common/prediction_techniques/pred_helper.py]:
    [prepare_scale_train_valid_test], [forecast],
    [mean_absolute_percentage_error] and [print_prediction_kpis], together
    with the parts of Python, numpy and scikit-learn these functions call.

    Prices are binary64 numbers (numpy's [float64]), modelled by Rocq's
    primitive floats; Python integers are [Z]; a pandas series is the list of
    its (index, value) rows; an exception is an explicit outcome. *)

From Stdlib Require Import String.
From Stdlib Require Import ZArith List Bool Lia Floats Permutation.
Import ListNotations.

(* ================================================================== *)
(** * Python: exceptions, slices, ranges *)
(* ================================================================== *)

(** The places a [ValueError] comes from in the modelled calls. *)
Inductive ValueErrorOrigin : Type :=
| Broadcast            (* numpy: operands could not be broadcast together *)
| InconsistentLength   (* sklearn check_consistent_length *)
| EmptyArray           (* sklearn check_array: 0 sample(s) *)
| NonFinite            (* sklearn check_array: NaN or infinity in the input *)
| TestSizeRange        (* sklearn: test_size not a float in the (0, 1) range *)
| SplitTooLarge        (* sklearn: train and test sizes exceed the samples *)
| EmptyTrainSet        (* sklearn: the resulting train set will be empty *)
| CeilOfNaN            (* math.ceil: cannot convert float NaN to integer *)
| FrameShape.          (* pandas: shape of passed values against the index *)

Inductive Exception : Type :=
| ValueError (origin : ValueErrorOrigin)
| OverflowError        (* math.ceil of an infinity *)
| ArgumentTypeError    (* argparse: rejected argument value *)
| IndexError
| UnboundLocalError
| AttributeError
| NotFittedError.

(** The outcome of a call: a value, or a raised exception. *)
Inductive Outcome (A : Type) : Type :=
| Returns (a : A)
| Raises (e : Exception).
Arguments Returns {A} a.
Arguments Raises {A} e.

Definition bind {A B : Type} (m : Outcome A) (k : A -> Outcome B) : Outcome B :=
  match m with
  | Returns a => k a
  | Raises e => Raises e
  end.

Notation "x <- m ;; k" := (bind m (fun x => k))
  (at level 61, m at next level, right associativity).
Notation "' p <- m ;; k" := (bind m (fun p => k))
  (at level 61, p pattern, m at next level, right associativity).

Fixpoint mapM {A B : Type} (f : A -> Outcome B) (l : list A) : Outcome (list B) :=
  match l with
  | [] => Returns []
  | a :: l' => b <- f a ;; bs <- mapM f l' ;; Returns (b :: bs)
  end.

Definition len {A : Type} (l : list A) : Z := Z.of_nat (length l).

(** A slice bound [i] of a sequence of [n] items, as Python clips it. *)
Definition slice_bound (n i : Z) : Z :=
  if (i <? 0)%Z then Z.max 0 (i + n) else Z.min i n.

(** [l[start:stop]]; [None] is an omitted bound. *)
Definition py_slice {A : Type} (l : list A) (start stop : option Z) : list A :=
  let a := match start with Some i => slice_bound (len l) i | None => 0%Z end in
  let b := match stop with Some j => slice_bound (len l) j | None => len l end in
  firstn (Z.to_nat (b - a)) (skipn (Z.to_nat a) l).

(** [range(a, b)] and [range(n)]; numpy's [arange] on integers is the same. *)
Definition py_range2 (a b : Z) : list Z :=
  map (fun k => (a + Z.of_nat k)%Z) (seq 0 (Z.to_nat (b - a))).
Definition py_range (n : Z) : list Z := py_range2 0 n.

(** The position an integer index [i] stands for among [n] items, negative
    ones counting from the end. *)
Definition position (n i : Z) : Z :=
  if (i <? 0)%Z then (i + n)%Z else i.

(** The item at index [i]; out of bounds is an [IndexError]. *)
Definition item {A : Type} (l : list A) (i : Z) : Outcome A :=
  let j := position (len l) i in
  if (j <? 0)%Z then Raises IndexError
  else match nth_error l (Z.to_nat j) with
       | Some x => Returns x
       | None => Raises IndexError
       end.

(* ================================================================== *)
(** * numpy on one-dimensional float64 arrays *)
(* ================================================================== *)

Module Np.
Open Scope float_scope.

(** An elementwise binary operation, with numpy's broadcasting of shapes
    [(n,)] and [(m,)]: equal lengths, or one of them of length 1. *)
Definition binop (f : float -> float -> float) (a b : list float)
  : Outcome (list float) :=
  if Nat.eqb (length a) (length b) then
    Returns (map (fun '(x, y) => f x y) (combine a b))
  else match a, b with
       | _, [y] => Returns (map (fun x => f x y) a)
       | [x], _ => Returns (map (fun y => f x y) b)
       | _, _ => Raises (ValueError Broadcast)
       end.

(** [add.reduce]: the items added in order, starting from the first one
    ([-0.0] is neutral for the addition).  numpy adds a long array by blocks;
    the results below do not depend on the order of the additions, except the
    evaluations on the two-item vectors, where there is one order only. *)
Definition sum (a : list float) : float := fold_left PrimFloat.add a (-0).

Definition of_count (n : nat) : float :=
  PrimFloat.of_uint63 (Uint63.of_Z (Z.of_nat n)).

(** [np.mean]: the sum divided by the number of items ([nan] when empty). *)
Definition mean (a : list float) : float := sum a / of_count (length a).

Definition abs (a : list float) : list float := map PrimFloat.abs a.
Definition square (a : list float) : list float := map (fun x => x * x) a.

Definition isnan (x : float) : bool := PrimFloat.is_nan x.
Definition isinf (x : float) : bool := PrimFloat.is_infinity x.
Definition isfinite (x : float) : bool := PrimFloat.is_finite x.

(** [math.ceil] of a float: an integer, or an exception on [nan] and on the
    infinities. *)
Definition ceil (x : float) : Outcome Z :=
  match Prim2SF x with
  | S754_zero _ => Returns 0%Z
  | S754_finite s m e =>
      let v := if s then Z.neg m else Z.pos m in
      Returns (if (0 <=? e)%Z then v * 2 ^ e else - ((- v) / 2 ^ (- e)))%Z
  | S754_nan => Raises (ValueError CeilOfNaN)
  | S754_infinity _ => Raises OverflowError
  end.
End Np.

(* ================================================================== *)
(** * scikit-learn: input checks, scalers, split, metrics *)
(* ================================================================== *)

Inductive ScalerClass : Type := StandardScaler | MinMaxScaler | Normalizer.

(** A scaler object: its class and the samples its [fit] has been called
    with, oldest first.  The fitted attributes of a scikit-learn estimator
    are a function of the sample of its last [fit]. *)
Record Scaler : Type := mkScaler {
  scaler_class : ScalerClass;
  fit_log : list (list float)
}.

(** The arithmetic of the three estimators: the value a scaler of the given
    class, fit on the given sample, maps a number to, and back. *)
Class ScalerArithmetic : Type := {
  scaled : ScalerClass -> list float -> float -> float;
  unscaled : ScalerClass -> list float -> float -> float
}.

Module Sk.

(** [check_array] on a column: at least one sample, no infinity, and no
    [nan] unless the estimator allows it. *)
Definition check_array (allow_nan : bool) (X : list float) : Outcome unit :=
  match X with
  | [] => Raises (ValueError EmptyArray)
  | _ =>
      if existsb Np.isinf X then Raises (ValueError NonFinite)
      else if negb allow_nan && existsb Np.isnan X then Raises (ValueError NonFinite)
      else Returns tt
  end.

Definition allows_nan (c : ScalerClass) : bool :=
  match c with
  | StandardScaler | MinMaxScaler => true
  | Normalizer => false
  end.

Definition new_scaler (c : ScalerClass) : Scaler := mkScaler c [].

Section Scalers.
Context {arith : ScalerArithmetic}.

(** [fit_transform]: fit on [X], then transform [X]. *)
Definition fit_transform (s : Scaler) (X : list float)
  : Outcome (Scaler * list float) :=
  _ <- check_array (allows_nan (scaler_class s)) X ;;
  Returns (mkScaler (scaler_class s) (fit_log s ++ [X]),
           map (scaled (scaler_class s) X) X).

(** The sample the fitted attributes come from; a [Normalizer] has no
    fitted attributes and never complains. *)
Definition fitted_sample (s : Scaler) : Outcome (list float) :=
  match scaler_class s, last (map Some (fit_log s)) None with
  | _, Some F => Returns F
  | Normalizer, None => Returns []
  | _, None => Raises NotFittedError
  end.

Definition transform (s : Scaler) (X : list float) : Outcome (list float) :=
  F <- fitted_sample s ;;
  _ <- check_array (allows_nan (scaler_class s)) X ;;
  Returns (map (scaled (scaler_class s) F) X).

(** [Normalizer] has no [inverse_transform] method. *)
Definition inverse_transform (s : Scaler) (X : list float)
  : Outcome (list float) :=
  match scaler_class s with
  | Normalizer => Raises AttributeError
  | c =>
      F <- fitted_sample s ;;
      _ <- check_array true X ;;
      Returns (map (unscaled c F) X)
  end.
End Scalers.

(** [_validate_shuffle_split] with [train_size=None] and a float
    [test_size]: the sizes of the two parts. *)
Definition validate_shuffle_split (n_samples : Z) (test_size : float)
  : Outcome (Z * Z) :=
  if (test_size <=? 0)%float || (1 <=? test_size)%float then
    Raises (ValueError TestSizeRange)
  else
    n_test <- Np.ceil (test_size * Np.of_count (Z.to_nat n_samples))%float ;;
    let n_train := (n_samples - n_test)%Z in
    if (n_samples <? n_train + n_test)%Z then Raises (ValueError SplitTooLarge)
    else if (n_train =? 0)%Z then Raises (ValueError EmptyTrainSet)
    else Returns (n_train, n_test).

(** The positions of the train and of the test part.  [permutation] is the
    draw of the random generator for [n_samples] items. *)
Definition split_indices (n_samples : Z) (test_size : float) (shuffle : bool)
    (permutation : Z -> list Z) : Outcome (list Z * list Z) :=
  '(n_train, n_test) <- validate_shuffle_split n_samples test_size ;;
  if shuffle then
    (* ShuffleSplit checks the two sizes again, as integers *)
    if (n_test <=? 0)%Z || (n_samples <=? n_test)%Z
       || (n_train <=? 0)%Z || (n_samples <=? n_train)%Z
    then Raises (ValueError TestSizeRange)
    else
      let p := permutation n_samples in
      Returns (py_slice p (Some n_test) (Some (n_test + n_train)%Z),
               py_slice p None (Some n_test))
  else
    Returns (py_range n_train, py_range2 n_train (n_train + n_test)).

Definition safe_indexing {A : Type} (a : list A) (idx : list Z)
  : Outcome (list A) :=
  mapM (item a) idx.

(** [train_test_split(a, b, c, d, test_size=..., shuffle=...)]. *)
Definition train_test_split {A B C D : Type}
    (a : list A) (b : list B) (c : list C) (d : list D)
    (test_size : float) (shuffle : bool) (permutation : Z -> list Z)
  : Outcome (list A * list A * list B * list B * list C * list C * list D * list D) :=
  if negb (Nat.eqb (length a) (length b) && Nat.eqb (length a) (length c)
           && Nat.eqb (length a) (length d))
  then Raises (ValueError InconsistentLength)
  else
    '(train, test) <- split_indices (len a) test_size shuffle permutation ;;
    a1 <- safe_indexing a train ;; a2 <- safe_indexing a test ;;
    b1 <- safe_indexing b train ;; b2 <- safe_indexing b test ;;
    c1 <- safe_indexing c train ;; c2 <- safe_indexing c test ;;
    d1 <- safe_indexing d train ;; d2 <- safe_indexing d test ;;
    Returns (a1, a2, b1, b2, c1, c2, d1, d2).

(** [_check_reg_targets] on two vectors. *)
Definition check_reg_targets (y_true y_pred : list float) : Outcome unit :=
  if negb (Nat.eqb (length y_true) (length y_pred)) then
    Raises (ValueError InconsistentLength)
  else
    _ <- check_array false y_true ;;
    check_array false y_pred.

Definition elementwise (f : float -> float -> float) (a b : list float)
  : list float :=
  map (fun '(x, y) => f x y) (combine a b).

Definition mean_absolute_error (y_true y_pred : list float) : Outcome float :=
  _ <- check_reg_targets y_true y_pred ;;
  Returns (Np.mean (Np.abs (elementwise PrimFloat.sub y_pred y_true))).

Definition mean_squared_error (y_true y_pred : list float) (squared : bool)
  : Outcome float :=
  _ <- check_reg_targets y_true y_pred ;;
  let mse := Np.mean (Np.square (elementwise PrimFloat.sub y_true y_pred)) in
  Returns (if squared then mse else PrimFloat.sqrt mse).

Definition r2_score (y_true y_pred : list float) : Outcome float :=
  _ <- check_reg_targets y_true y_pred ;;
  if (length y_pred <? 2)%nat then Returns PrimFloat.nan
  else
    let numerator := Np.sum (Np.square (elementwise PrimFloat.sub y_true y_pred)) in
    let centre := Np.mean y_true in
    let denominator :=
      Np.sum (Np.square (map (fun t => t - centre)%float y_true)) in
    let nonzero_numerator := negb (numerator =? 0)%float in
    let nonzero_denominator := negb (denominator =? 0)%float in
    Returns (if nonzero_numerator && nonzero_denominator
             then (1 - numerator / denominator)%float
             else if nonzero_numerator then 0%float
             else 1%float).
End Sk.

(* ================================================================== *)
(** * pred_helper.py *)
(* ================================================================== *)

Definition date : Type := Z.

(** A pandas series of prices: its rows (index, value), in order. *)
Definition Series : Type := list (date * float).

Definition index (data : Series) : list date := map fst data.
Definition values (data : Series) : list float := map snd data.

(** [check_valid_frac]: the argument checker of the validation fraction. *)
Definition check_valid_frac (num : float) : Outcome float :=
  if (num <? 0)%float || (1 <? num)%float then Raises ArgumentTypeError
  else Returns num.

(** Lines 268-278: the scaler chosen by the configuration constant
    [PREPROCESSER] ([None] is Python's [None]).  The outer [None] of the
    result is the name [scaler] left unbound by an unrecognised value. *)
Definition select_scaler (PREPROCESSER : option String.string)
  : option (option Scaler) :=
  match PREPROCESSER with
  | Some name =>
      if String.eqb name "standardization"%string then Some (Some (Sk.new_scaler StandardScaler))
      else if String.eqb name "minmax"%string then Some (Some (Sk.new_scaler MinMaxScaler))
      else if String.eqb name "normalization"%string then Some (Some (Sk.new_scaler Normalizer))
      else if String.eqb name "none"%string then Some None
      else None
  | None => Some None
  end.

(** Line 283: [data[data.index <= s_end_date]]. *)
Definition up_to (s_end_date : date) (data : Series) : Series :=
  filter (fun row => (fst row <=? s_end_date)%Z) data.

(** Lines 282-283: the series, cut at the end date when there is one. *)
Definition cut (s_end_date : option date) (data : Series) : Series :=
  match s_end_date with
  | Some d => up_to d data
  | None => data
  end.

(** Line 303: [data.iloc[-n_input_days:]]. *)
Definition last_rows {A : Type} (n_input_days : Z) (data : list A) : list A :=
  py_slice data (Some (- n_input_days)%Z) None.

(** Line 304: [data.iloc[:-n_input_days]]. *)
Definition rows_before_last {A : Type} (n_input_days : Z) (data : list A) : list A :=
  py_slice data None (Some (- n_input_days)%Z).

(** The four lists the windowing loop appends to. *)
Record Windows : Type := mkWindows {
  input_dates : list (list date);
  input_prices : list (list float);
  next_n_day_prices : list (list float);
  next_n_day_dates : list (list date)
}.

(** Lines 323-330: the body of the loop, at position [idx]. *)
Definition append_window (prices : list float) (dates : list date)
    (n_input_days n_predict_days : Z) (w : Windows) (idx : Z) : Windows :=
  {| input_prices :=
       input_prices w ++ [py_slice prices (Some idx) (Some (idx + n_input_days)%Z)];
     input_dates :=
       input_dates w ++ [py_slice dates (Some idx) (Some (idx + n_input_days)%Z)];
     next_n_day_prices :=
       next_n_day_prices w ++
       [py_slice prices (Some (idx + n_input_days)%Z)
                        (Some (idx + n_input_days + n_predict_days)%Z)];
     next_n_day_dates :=
       next_n_day_dates w ++
       [py_slice dates (Some (idx + n_input_days)%Z)
                       (Some (idx + n_input_days + n_predict_days)%Z)] |}.

(** Lines 317-330: [for idx in range(len(prices) - n_input_days - n_predict_days)]. *)
Definition make_windows (prices : list float) (dates : list date)
    (n_input_days n_predict_days : Z) : Windows :=
  fold_left (append_window prices dates n_input_days n_predict_days)
            (py_range (len prices - n_input_days - n_predict_days))
            (mkWindows [] [] [] []).

(** The eleven values returned before the flag. *)
Record Prepared : Type := mkPrepared {
  X_train : list (list float);
  X_valid : list (list float);
  y_train : list (list float);
  y_valid : list (list float);
  X_dates_train : list (list date);
  X_dates_valid : list (list date);
  y_dates_train : list (list date);
  y_dates_valid : list (list date);
  test_data : list float;
  dates_test : list date;
  scaler : option Scaler
}.

(** What the function returns: eleven [None] and [True], or the eleven
    values and [False]. *)
Inductive PrepareReturn : Type :=
| NotEnoughData
| Ready (p : Prepared).

Section PredHelper.
Context {arith : ScalerArithmetic}.

(** Lines 308-313: scaling, or not.  [data] is the whole (cut) series and
    [test_data] its last rows. *)
Definition scale_step (scaler : option (option Scaler)) (data test_data : Series)
  : Outcome (option Scaler * list float * list float) :=
  match scaler with
  | None => Raises UnboundLocalError
  | Some (Some s) =>
      '(s', train_data) <- Sk.fit_transform s (values data) ;;
      test_data' <- Sk.transform s' (values test_data) ;;
      Returns (Some s', train_data, test_data')
  | Some None => Returns (None, values data, values test_data)
  end.

(** [prepare_scale_train_valid_test].  [PREPROCESSER] is the module constant
    and [permutation] the draw of numpy's random generator that the shuffled
    split uses. *)
Definition prepare_scale_train_valid_test
    (PREPROCESSER : option String.string) (permutation : Z -> list Z)
    (data : Series) (n_input_days n_predict_days : Z) (test_size : float)
    (s_end_date : option date) (no_shuffle : bool) : Outcome PrepareReturn :=
  let scaler := select_scaler PREPROCESSER in
  let data := cut s_end_date data in
  if match s_end_date with
     | Some _ => (n_input_days + n_predict_days >? len data)%Z
     | None => false
     end
  then Returns NotEnoughData
  else
    let test_data := last_rows n_input_days data in
    let train_data := rows_before_last n_input_days data in
    let dates := index data in
    let dates_test := index test_data in
    '(scaler, train_data, test_data) <- scale_step scaler data test_data ;;
    let prices := train_data in
    let w := make_windows prices dates n_input_days n_predict_days in
    '(X_train, X_valid, y_train, y_valid,
      X_dates_train, X_dates_valid, y_dates_train, y_dates_valid) <-
      Sk.train_test_split (input_prices w) (next_n_day_prices w)
                          (input_dates w) (next_n_day_dates w)
                          test_size no_shuffle permutation ;;
    Returns (Ready (mkPrepared X_train X_valid y_train y_valid
                               X_dates_train X_dates_valid
                               y_dates_train y_dates_valid
                               test_data dates_test scaler)).

(** [forecast]: [model] is the [predict] of the trained network, on the
    flattened input.  The method [inverse_transform] is looked up before the
    model is called. *)
Definition forecast (input_values : list float) (future_dates : list date)
    (model : list float -> Outcome (list float)) (scaler : option Scaler)
  : Outcome (list (date * float)) :=
  future_values <-
    match scaler with
    | Some s =>
        match scaler_class s with
        | Normalizer => Raises AttributeError
        | _ => prediction <- model input_values ;; Sk.inverse_transform s prediction
        end
    | None => model input_values
    end ;;
  if Nat.eqb (length future_values) (length future_dates)
  then Returns (combine future_dates future_values)
  else Raises (ValueError FrameShape).

End PredHelper.

(** [mean_absolute_percentage_error]. *)
Definition mean_absolute_percentage_error (y_true y_pred : list float)
  : Outcome float :=
  difference <- Np.binop PrimFloat.sub y_true y_pred ;;
  ratio <- Np.binop PrimFloat.div difference y_true ;;
  Returns (Np.mean (Np.abs ratio) * 100)%float.

(** The five numbers [print_prediction_kpis] formats and prints. *)
Record Scorecard : Type := mkScorecard {
  MAPE : float;
  R2 : float;
  MAE : float;
  MSE : float;
  RMSE : float
}.

(** [print_prediction_kpis]: the dictionary is built entry by entry, in this
    order, before anything is printed. *)
Definition print_prediction_kpis (real pred : list float) : Outcome Scorecard :=
  mape <- mean_absolute_percentage_error real pred ;;
  r2 <- Sk.r2_score real pred ;;
  mae <- Sk.mean_absolute_error real pred ;;
  mse <- Sk.mean_squared_error real pred true ;;
  rmse <- Sk.mean_squared_error real pred false ;;
  Returns (mkScorecard mape r2 mae mse rmse).

(* ================================================================== *)
(** * Vocabulary of the statements *)
(* ================================================================== *)

(** The items of [l] at the positions [idx]. *)
Definition select {A : Type} (l : list A) (d : A) (idx : list Z) : list A :=
  map (fun i => nth (Z.to_nat i) l d) idx.

(** The slices [arr[from idx : upto idx]], for [idx] in [idxs]. *)
Definition slices {A : Type} (arr : list A) (from upto : Z -> Z) (idxs : list Z)
  : list (list A) :=
  map (fun idx => py_slice arr (Some (from idx)) (Some (upto idx))) idxs.

(** The number of window pairs. *)
Definition count (w : Windows) : nat := length (input_prices w).

(** The four lists of a window set have one length. *)
Definition parallel (w : Windows) : Prop :=
  length (input_dates w) = count w /\ length (next_n_day_prices w) = count w
  /\ length (next_n_day_dates w) = count w.

(** The training and the validation arrays of a result, as window sets. *)
Definition train_part (out : Prepared) : Windows :=
  mkWindows (X_dates_train out) (X_train out) (y_train out) (y_dates_train out).

Definition valid_part (out : Prepared) : Windows :=
  mkWindows (X_dates_valid out) (X_valid out) (y_valid out) (y_dates_valid out).

(** The window pairs of [w] at the positions [idx], in the order of [idx]. *)
Definition pick (w : Windows) (idx : list Z) : Windows :=
  mkWindows (select (input_dates w) [] idx) (select (input_prices w) [] idx)
            (select (next_n_day_prices w) [] idx) (select (next_n_day_dates w) [] idx).

(** The first [n] window pairs, and the ones after them. *)
Definition first_pairs (n : nat) (w : Windows) : Windows :=
  mkWindows (firstn n (input_dates w)) (firstn n (input_prices w))
            (firstn n (next_n_day_prices w)) (firstn n (next_n_day_dates w)).

Definition pairs_from (n : nat) (w : Windows) : Windows :=
  mkWindows (skipn n (input_dates w)) (skipn n (input_prices w))
            (skipn n (next_n_day_prices w)) (skipn n (next_n_day_dates w)).

(** The pair at place [k] of [w] is made of rows of the series [data]: the
    input arrays are the two columns of [n_input_days] consecutive rows, and
    the target arrays the two columns of the [n_predict_days] rows after
    them. *)
Definition rows_of_series (data : Series) (n_input_days n_predict_days : Z)
    (w : Windows) (k : nat) : Prop :=
  exists idx : Z,
    (0 <= idx < len data - n_input_days - n_predict_days)%Z
    /\ nth k (input_prices w) [] =
       values (py_slice data (Some idx) (Some (idx + n_input_days)%Z))
    /\ nth k (input_dates w) [] =
       index (py_slice data (Some idx) (Some (idx + n_input_days)%Z))
    /\ nth k (next_n_day_prices w) [] =
       values (py_slice data (Some (idx + n_input_days)%Z)
                             (Some (idx + n_input_days + n_predict_days)%Z))
    /\ nth k (next_n_day_dates w) [] =
       index (py_slice data (Some (idx + n_input_days)%Z)
                            (Some (idx + n_input_days + n_predict_days)%Z)).

(** The formula of the specification for MAPE, read literally:
    mean(|actual - predicted| / actual) * 100. *)
Definition mape_by_the_formula (actual predicted : list float) : float :=
  (Np.mean (map (fun '(a, p) => abs (a - p) / a) (combine actual predicted)) * 100)%float.

(** The two exceptions that report vectors of different shapes. *)
Definition shape_mismatch (e : Exception) : bool :=
  match e with
  | ValueError Broadcast | ValueError InconsistentLength => true
  | _ => false
  end.

(** An infinity or [nan]. *)
Definition SFnonfinite (x : spec_float) : bool :=
  match x with
  | S754_nan | S754_infinity _ => true
  | _ => false
  end.

Definition nonfinite (x : float) : bool := SFnonfinite (Prim2SF x).

(** Not a negative number: the sign bit is clear, or the value is [nan]. *)
Definition SFunsigned (x : spec_float) : bool :=
  match x with
  | S754_zero s | S754_infinity s | S754_finite s _ _ => negb s
  | S754_nan => true
  end.

(* ================================================================== *)
(** * Example data *)
(* ================================================================== *)

(** A daily series: the given prices on the days 1, 2, 3, ... *)
Definition daily (prices : list float) : Series :=
  combine (py_range2 1 (1 + len prices)) prices.

Definition eight_days : Series := daily [1; 2; 3; 4; 5; 6; 7; 8]%float.
Definition five_days : Series := daily [1; 2; 3; 4; 5]%float.
Definition four_days : Series := daily [1; 2; 3; 4]%float.

Definition smallest (F : list float) : float :=
  fold_left (fun m x => if (x <? m)%float then x else m) F infinity.
Definition largest (F : list float) : float :=
  fold_left (fun m x => if (m <? x)%float then x else m) F neg_infinity.
Definition spread (F : list float) : float :=
  PrimFloat.sqrt (Np.mean (Np.square (map (fun x => x - Np.mean F)%float F))).

(** One arithmetic for the three estimators, by their textbook formulas, to
    run the functions on examples.  The theorems hold for every arithmetic. *)
#[export] Instance textbook_arithmetic : ScalerArithmetic := {|
  scaled c F x :=
    match c with
    | StandardScaler => ((x - Np.mean F) / spread F)%float
    | MinMaxScaler => ((x - smallest F) / (largest F - smallest F))%float
    | Normalizer => (x / abs x)%float
    end;
  unscaled c F x :=
    match c with
    | StandardScaler => (x * spread F + Np.mean F)%float
    | MinMaxScaler => (x * (largest F - smallest F) + smallest F)%float
    | Normalizer => x
    end
|}.

(* ================================================================== *)
(** * pred_helper.py: the TensorFlow environment variables *)
(* ================================================================== *)

(** [os.environ]: the value of each variable that is set. *)
Definition Environ : Type := String.string -> option String.string.

(** [os.environ[key] = value] and [del os.environ[key]]. *)
Definition setenv (key value : String.string) (env : Environ) : Environ :=
  fun k => if String.eqb k key then Some value else env k.

Definition delenv (key : String.string) (env : Environ) : Environ :=
  fun k => if String.eqb k key then None else env k.

(** [str.split(sep)] on one character: the pieces between the separators. *)
Fixpoint split_on (sep : Ascii.ascii) (s : String.string) : list String.string :=
  match s with
  | EmptyString => [EmptyString]
  | String c rest =>
      if Ascii.eqb c sep then EmptyString :: split_on sep rest
      else match split_on sep rest with
           | piece :: pieces => String c piece :: pieces
           | [] => [String c EmptyString]
           end
  end.

(** Lines 44-45: the two values the module keeps from its import. *)
Record Originals : Type := mkOriginals {
  ORIGINAL_TF_XLA_FLAGS : option String.string;
  ORIGINAL_TF_FORCE_GPU_ALLOW_GROWTH : option String.string
}.

(** Lines 39-45: what importing the module does to the environment, and the
    two values it keeps. *)
Definition import_module (env : Environ) : Environ * Originals :=
  let env := setenv "TF_CPP_MIN_LOG_LEVEL" "2" env in
  (env, mkOriginals (env "TF_XLA_FLAGS"%string)
                    (env "TF_FORCE_GPU_ALLOW_GROWTH"%string)).

(** Lines 60-65: [restore(key, value)]. *)
Definition restore (key : String.string) (value : option String.string)
    (env : Environ) : Environ :=
  match value with
  | None =>
      match env key with
      | Some _ => delenv key env
      | None => env
      end
  | Some v => setenv key v env
  end.

(** [restore_env]. *)
Definition restore_env (o : Originals) (env : Environ) : Environ :=
  restore "TF_FORCE_GPU_ALLOW_GROWTH" (ORIGINAL_TF_FORCE_GPU_ALLOW_GROWTH o)
          (restore "TF_XLA_FLAGS" (ORIGINAL_TF_XLA_FLAGS o) env).

(** Lines 201-209: the members of the set [xla_flags], as they are added. *)
Definition xla_flags (o : Originals) (b_xla_cpu b_xla_gpu : bool)
  : list String.string :=
  let kept :=
    match ORIGINAL_TF_XLA_FLAGS o with
    | Some (String c rest) => split_on Ascii.Space (String c rest)
    | Some EmptyString | None => []
    end in
  kept
  ++ (if b_xla_cpu || b_xla_gpu then
        ["--tf_xla_enable_xla_devices"%string]
        ++ (if b_xla_cpu then ["--tf_xla_cpu_global_jit"%string] else [])
        ++ (if b_xla_gpu then ["--tf_xla_auto_jit=2"%string] else [])
      else []).

(** Lines 200-216 of [parse_args]: what a successful parse does to the
    environment.  [join] is [" ".join] on a set with the given members; the
    order in which a set hands out its members is Python's to choose. *)
Definition parse_args_environment (join : list String.string -> String.string)
    (o : Originals) (b_xla_cpu b_xla_gpu : bool)
    (s_force_gpu_allow_growth : String.string) (env : Environ) : Environ :=
  let env := setenv "TF_XLA_FLAGS" (join (xla_flags o b_xla_cpu b_xla_gpu)) env in
  if String.eqb s_force_gpu_allow_growth "true" then
    setenv "TF_FORCE_GPU_ALLOW_GROWTH" "true" env
  else if String.eqb s_force_gpu_allow_growth "false" then
    setenv "TF_FORCE_GPU_ALLOW_GROWTH" "false" env
  else env.

(* ================================================================== *)
(** * Vocabulary of the further statements *)
(* ================================================================== *)

(** The window pair at place [k] of [w] is a run of consecutive dates of
    [dates], strictly before the last one: [n_input_days] input dates
    followed at once by [n_predict_days] target dates, with as many prices. *)
Definition adjacent_run (dates : list date) (n_input_days n_predict_days : Z)
    (w : Windows) (k : nat) : Prop :=
  exists idx : Z,
    (0 <= idx)%Z /\ (idx + n_input_days + n_predict_days < len dates)%Z
    /\ nth k (input_dates w) [] ++ nth k (next_n_day_dates w) []
       = py_slice dates (Some idx) (Some (idx + n_input_days + n_predict_days)%Z)
    /\ length (nth k (input_dates w) []) = Z.to_nat n_input_days
    /\ length (nth k (input_prices w) []) = Z.to_nat n_input_days
    /\ length (nth k (next_n_day_dates w) []) = Z.to_nat n_predict_days
    /\ length (nth k (next_n_day_prices w) []) = Z.to_nat n_predict_days.

(** Zero of either sign, a positive number, plus infinity or [nan]. *)
Definition SFnot_negative (x : spec_float) : bool :=
  match x with
  | S754_finite true _ _ | S754_infinity true => false
  | _ => true
  end.

(** A number that is neither zero, nor infinite, nor [nan]. *)
Definition SFregular (x : spec_float) : bool :=
  match x with
  | S754_finite _ _ _ => true
  | _ => false
  end.

(* ================================================================== *)
(** * Proof automation *)
(* ================================================================== *)

(** Through a [bind] that has returned. *)
Ltac bind_inv H :=
  match type of H with
  | bind ?m _ = Returns _ =>
      let E := fresh "E" in destruct m eqn:E; cbn [bind] in H; [|discriminate H]
  end.

(* ================================================================== *)
(** * Outcomes *)
(* ================================================================== *)

Lemma Returns_inj {A : Type} (a b : A) : Returns a = Returns b -> a = b.
Proof. intros H. now injection H. Qed.

(* ================================================================== *)
(** * Facts about binary64 arithmetic *)
(* ================================================================== *)

Section FloatFacts.
Open Scope float_scope.

Lemma binary_round_aux_abs (s : bool) (m e : Z) (l : location) :
  SFabs (binary_round_aux prec emax s m e l) = binary_round_aux prec emax false m e l.
Proof.
  unfold binary_round_aux.
  destruct (shr_fexp prec emax m e l) as [mrs' e'].
  destruct (shr_fexp prec emax _ e' loc_Exact) as [mrs'' e''].
  destruct (shr_m mrs''); try reflexivity.
  destruct (e'' <=? emax - prec)%Z; reflexivity.
Qed.

Lemma SFdiv_abs (x y : spec_float) :
  SFabs (SF64div x y) = SF64div (SFabs x) (SFabs y).
Proof.
  destruct x as [sx|sx| |sx mx ex], y as [sy|sy| |sy my ey]; try reflexivity.
  unfold SF64div, SFdiv, SFabs.
  destruct (SFdiv_core_binary prec emax (Z.pos mx) ex (Z.pos my) ey) as [[mz ez] lz].
  apply binary_round_aux_abs.
Qed.

Lemma abs_div (x t : float) : abs (x / t) = abs x / abs t.
Proof.
  apply Prim2SF_inj.
  rewrite abs_spec, !div_spec, !abs_spec.
  apply SFdiv_abs.
Qed.

Lemma abs_positive (t : float) : (0 <? t) = true -> abs t = t.
Proof.
  intros H. apply Prim2SF_inj. rewrite abs_spec.
  rewrite ltb_spec in H.
  change (Prim2SF 0) with (S754_zero false) in H.
  destruct (Prim2SF t) as [s|s| |s m e]; simpl in *; try discriminate;
    destruct s; try discriminate; reflexivity.
Qed.

Lemma SFcompare_refl_finite (s : bool) (m : positive) (e : Z) :
  SFcompare (S754_finite s m e) (S754_finite s m e) = Some Eq.
Proof.
  simpl. rewrite Z.compare_refl, Pos.compare_cont_refl. destruct s; reflexivity.
Qed.

Lemma is_finite_spec (x : float) : is_finite x = negb (nonfinite x).
Proof.
  unfold is_finite, is_nan, is_infinity, nonfinite.
  rewrite !eqb_spec, abs_spec.
  change (Prim2SF infinity) with (S754_infinity false).
  unfold SFeqb.
  destruct (Prim2SF x) as [s|s| |s m e]; try reflexivity.
  - destruct s; reflexivity.
  - rewrite SFcompare_refl_finite. reflexivity.
Qed.

Lemma nonfinite_add_l (x y : float) : nonfinite x = true -> nonfinite (x + y) = true.
Proof.
  unfold nonfinite. rewrite add_spec.
  destruct (Prim2SF x) as [s|s| |s m e], (Prim2SF y) as [s'|s'| |s' m' e'];
    try discriminate; try reflexivity; destruct s, s'; reflexivity.
Qed.

Lemma nonfinite_add_r (x y : float) : nonfinite y = true -> nonfinite (x + y) = true.
Proof.
  unfold nonfinite. rewrite add_spec.
  destruct (Prim2SF x) as [s|s| |s m e], (Prim2SF y) as [s'|s'| |s' m' e'];
    try discriminate; try reflexivity; destruct s, s'; reflexivity.
Qed.

Lemma nonfinite_div_l (x y : float) : nonfinite x = true -> nonfinite (x / y) = true.
Proof.
  unfold nonfinite. rewrite div_spec.
  destruct (Prim2SF x) as [s|s| |s m e], (Prim2SF y) as [s'|s'| |s' m' e'];
    try discriminate; reflexivity.
Qed.

Lemma nonfinite_mul_l (x y : float) : nonfinite x = true -> nonfinite (x * y) = true.
Proof.
  unfold nonfinite. rewrite mul_spec.
  destruct (Prim2SF x) as [s|s| |s m e], (Prim2SF y) as [s'|s'| |s' m' e'];
    try discriminate; reflexivity.
Qed.

Lemma nonfinite_abs (x : float) : nonfinite x = true -> nonfinite (abs x) = true.
Proof.
  unfold nonfinite. rewrite abs_spec.
  destruct (Prim2SF x); try discriminate; reflexivity.
Qed.

(** A zero divides what differs from it into an infinity or [nan]. *)
Lemma nonfinite_ratio_at_zero (a p : float) :
  (a =? 0) = true -> (p =? a) = false -> nonfinite ((a - p) / a) = true.
Proof.
  unfold nonfinite. rewrite !eqb_spec, div_spec, sub_spec.
  change (Prim2SF 0) with (S754_zero false).
  unfold SFeqb.
  destruct (Prim2SF a) as [s|s| |s m e], (Prim2SF p) as [s'|s'| |s' m' e'];
    simpl; try discriminate; try reflexivity; destruct s; try discriminate.
Qed.

Lemma nonfinite_fold_add (l : list float) (acc : float) :
  nonfinite acc = true -> nonfinite (fold_left PrimFloat.add l acc) = true.
Proof.
  revert acc. induction l as [|x l IH]; intros acc H; simpl.
  - exact H.
  - apply IH. now apply nonfinite_add_l.
Qed.

Lemma nonfinite_sum (l : list float) (x : float) :
  In x l -> nonfinite x = true -> nonfinite (Np.sum l) = true.
Proof.
  unfold Np.sum. generalize (-0). induction l as [|y l IH]; intros acc Hin Hx.
  - destruct Hin.
  - simpl. destruct Hin as [-> | Hin].
    + apply nonfinite_fold_add. now apply nonfinite_add_r.
    + now apply IH.
Qed.

End FloatFacts.

Section Scoring.
Open Scope float_scope.

Lemma ratio_of_equal_lengths (y_true y_pred : list float) :
  length y_true = length y_pred ->
  mean_absolute_percentage_error y_true y_pred =
  Returns (Np.mean (map (fun '(t, p) => abs ((t - p) / t)) (combine y_true y_pred)) * 100).
Proof.
  intros Hlen. unfold mean_absolute_percentage_error, Np.binop.
  rewrite Hlen, Nat.eqb_refl. simpl bind.
  rewrite length_map, length_combine, Hlen, Nat.min_id, <- Hlen, Nat.eqb_refl.
  simpl bind. do 3 f_equal. unfold Np.abs. rewrite map_map.
  clear Hlen. revert y_pred.
  induction y_true as [|t y_true IH]; intros [|p y_pred]; simpl; try reflexivity.
  f_equal. apply IH.
Qed.

Lemma binop_raises_broadcast f a b e :
  Np.binop f a b = Raises e -> e = ValueError Broadcast.
Proof.
  unfold Np.binop. destruct (Nat.eqb _ _); [discriminate|].
  destruct a as [|x [|x' a]], b as [|y [|y' b]]; intros H;
    try discriminate; now injection H.
Qed.

(** The only exception of the MAPE computation is the broadcasting one. *)
Lemma mape_raises_broadcast y_true y_pred e :
  mean_absolute_percentage_error y_true y_pred = Raises e -> e = ValueError Broadcast.
Proof.
  unfold mean_absolute_percentage_error. intros H.
  destruct (Np.binop PrimFloat.sub y_true y_pred) as [d|e1] eqn:E1; cbn [bind] in H.
  - destruct (Np.binop PrimFloat.div d y_true) as [r|e2] eqn:E2; cbn [bind] in H.
    + discriminate.
    + injection H as <-. exact (binop_raises_broadcast _ _ _ _ E2).
  - injection H as <-. exact (binop_raises_broadcast _ _ _ _ E1).
Qed.

End Scoring.

(* ================================================================== *)
(** * Facts about slices, ranges and indexing *)
(* ================================================================== *)

Section Sequences.
Context {A : Type}.
Implicit Types (l : list A) (d : A).

Lemma length_py_range2 (a b : Z) : length (py_range2 a b) = Z.to_nat (b - a).
Proof. unfold py_range2. now rewrite length_map, length_seq. Qed.

Lemma length_py_range (n : Z) : length (py_range n) = Z.to_nat n.
Proof. unfold py_range. rewrite length_py_range2. f_equal. lia. Qed.

Lemma seq_from (lo n : nat) : seq lo n = map (fun k => lo + k)%nat (seq 0 n).
Proof.
  revert lo. induction n as [|n IH]; intros lo; simpl.
  - reflexivity.
  - f_equal; [lia|]. rewrite (IH (S lo)), (IH 1%nat), map_map.
    apply map_ext. intros k. lia.
Qed.

Lemma py_range2_split (a b c : Z) :
  (a <= b <= c)%Z -> py_range2 a c = py_range2 a b ++ py_range2 b c.
Proof.
  intros H. unfold py_range2.
  replace (Z.to_nat (c - a)) with (Z.to_nat (b - a) + Z.to_nat (c - b))%nat by lia.
  rewrite seq_app, map_app. f_equal.
  rewrite (seq_from (0 + _)), map_map. apply map_ext. intros k. lia.
Qed.

Lemma item_in_range l (i : Z) d :
  (0 <= i < len l)%Z -> item l i = Returns (nth (Z.to_nat i) l d).
Proof.
  intros H. unfold item, position, len in *.
  destruct (i <? 0)%Z eqn:E; [lia|]. rewrite E.
  destruct (nth_error l (Z.to_nat i)) eqn:N.
  - f_equal. symmetry. now apply nth_error_nth.
  - apply nth_error_None in N. lia.
Qed.

(** What a successful [item] has fetched. *)
Lemma item_returns l (i : Z) (x : A) d :
  item l i = Returns x ->
  (0 <= position (len l) i < len l)%Z
  /\ x = nth (Z.to_nat (position (len l) i)) l d.
Proof.
  unfold item. generalize (position (len l) i). intros j H.
  destruct (j <? 0)%Z eqn:E; [discriminate|].
  destruct (nth_error l (Z.to_nat j)) eqn:N; [|discriminate].
  assert (x = a) by congruence. subst a.
  split.
  - assert (Z.to_nat j < length l)%nat by (apply nth_error_Some; congruence).
    unfold len. lia.
  - symmetry. now apply nth_error_nth.
Qed.

Lemma safe_indexing_in_range l d (idx : list Z) :
  Forall (fun i => 0 <= i < len l)%Z idx ->
  Sk.safe_indexing l idx = Returns (select l d idx).
Proof.
  unfold Sk.safe_indexing. induction 1 as [|i idx Hi _ IH]; simpl.
  - reflexivity.
  - rewrite (item_in_range _ _ d Hi), IH. reflexivity.
Qed.

Lemma nth_seq_prefix l d (n : nat) :
  (n <= length l)%nat -> map (fun k => nth k l d) (seq 0 n) = firstn n l.
Proof.
  revert l. induction n as [|n IH]; intros l H.
  - reflexivity.
  - destruct l as [|x l]; [simpl in H; lia|].
    cbn [seq map firstn nth]. f_equal.
    rewrite <- seq_shift, map_map. cbn [nth]. apply IH. simpl in H. lia.
Qed.

Lemma nth_seq_window l d (lo n : nat) :
  (lo + n <= length l)%nat ->
  map (fun k => nth k l d) (seq lo n) = firstn n (skipn lo l).
Proof.
  intros H. rewrite seq_from, map_map.
  rewrite <- (nth_seq_prefix (skipn lo l) d) by (rewrite length_skipn; lia).
  apply map_ext. intros k. now rewrite nth_skipn.
Qed.

Lemma select_py_range2 l d (a b : Z) :
  (0 <= a <= b)%Z -> (b <= len l)%Z ->
  select l d (py_range2 a b) = firstn (Z.to_nat (b - a)) (skipn (Z.to_nat a) l).
Proof.
  intros Ha Hb. unfold select, py_range2. rewrite map_map.
  rewrite <- (nth_seq_window l d) by (unfold len in *; lia).
  rewrite (seq_from (Z.to_nat a)), map_map.
  apply map_ext. intros k. f_equal. lia.
Qed.

Lemma py_range2_bounds (a b i : Z) : In i (py_range2 a b) -> (a <= i < b)%Z.
Proof.
  unfold py_range2. rewrite in_map_iff. intros [k [<- Hk]].
  apply in_seq in Hk. lia.
Qed.

Lemma Forall_py_range2 (a b n : Z) :
  (0 <= a)%Z -> (b <= n)%Z -> Forall (fun i => 0 <= i < n)%Z (py_range2 a b).
Proof.
  intros Ha Hb. apply Forall_forall. intros i Hi.
  apply py_range2_bounds in Hi. lia.
Qed.

Lemma length_select (l : list A) d idx : length (select l d idx) = length idx.
Proof. apply length_map. Qed.

Lemma py_slice_firstn (l : list A) (k : Z) :
  (0 <= k)%Z -> py_slice l None (Some k) = firstn (Z.to_nat k) l.
Proof.
  intros H. unfold py_slice, slice_bound.
  destruct (k <? 0)%Z eqn:E; [lia|]. simpl.
  rewrite Z.sub_0_r.
  destruct (Z.le_ge_cases k (len l)).
  - now rewrite Z.min_l.
  - rewrite Z.min_r by assumption. unfold len in *.
    rewrite Nat2Z.id, firstn_all. symmetry. apply firstn_all2. lia.
Qed.

Lemma py_slice_skipn (l : list A) (k n : Z) :
  (0 <= k)%Z -> (len l <= n)%Z -> py_slice l (Some k) (Some n) = skipn (Z.to_nat k) l.
Proof.
  intros Hk Hn. unfold py_slice, slice_bound.
  destruct (k <? 0)%Z eqn:E; [lia|].
  destruct (n <? 0)%Z eqn:E'; [unfold len in *; lia|].
  rewrite (Z.min_r n) by assumption.
  destruct (Z.le_ge_cases k (len l)).
  - rewrite Z.min_l by assumption. apply firstn_all2.
    rewrite length_skipn. unfold len. lia.
  - rewrite Z.min_r by assumption. rewrite Z.sub_diag. simpl.
    symmetry. apply skipn_all2. unfold len in *. lia.
Qed.

End Sequences.

Section WindowFacts.

(** The loop, as four maps over its range. *)
Lemma fold_append_window prices dates n_in n_pred idxs w :
  fold_left (append_window prices dates n_in n_pred) idxs w =
  mkWindows
    (input_dates w ++ slices dates (fun i => i) (fun i => i + n_in)%Z idxs)
    (input_prices w ++ slices prices (fun i => i) (fun i => i + n_in)%Z idxs)
    (next_n_day_prices w ++
       slices prices (fun i => i + n_in)%Z (fun i => i + n_in + n_pred)%Z idxs)
    (next_n_day_dates w ++
       slices dates (fun i => i + n_in)%Z (fun i => i + n_in + n_pred)%Z idxs).
Proof.
  revert w. induction idxs as [|idx idxs IH]; intros w; simpl.
  - rewrite !app_nil_r. now destruct w.
  - rewrite IH. unfold append_window; simpl. now rewrite <- !app_assoc.
Qed.

Lemma make_windows_maps prices dates n_in n_pred :
  make_windows prices dates n_in n_pred =
  let idxs := py_range (len prices - n_in - n_pred) in
  mkWindows
    (slices dates (fun i => i) (fun i => i + n_in)%Z idxs)
    (slices prices (fun i => i) (fun i => i + n_in)%Z idxs)
    (slices prices (fun i => i + n_in)%Z (fun i => i + n_in + n_pred)%Z idxs)
    (slices dates (fun i => i + n_in)%Z (fun i => i + n_in + n_pred)%Z idxs).
Proof. unfold make_windows. now rewrite fold_append_window. Qed.

(** The number of window pairs: [len(prices) - n_input_days - n_predict_days],
    or none when that is not positive. *)
Lemma make_windows_count prices dates n_in n_pred :
  let w := make_windows prices dates n_in n_pred in
  let n := Z.to_nat (len prices - n_in - n_pred) in
  length (input_prices w) = n /\ length (next_n_day_prices w) = n /\
  length (input_dates w) = n /\ length (next_n_day_dates w) = n.
Proof.
  rewrite make_windows_maps. simpl. unfold slices.
  rewrite !length_map, length_py_range. auto.
Qed.

End WindowFacts.

Section SplitSizes.
Open Scope float_scope.

Lemma SFcompare_Lt_Gt (x y : spec_float) :
  SFcompare x y = Some Lt -> SFcompare y x = Some Gt.
Proof.
  destruct x as [s|s| |s m e], y as [s'|s'| |s' m' e']; simpl;
    try discriminate; try (destruct s; discriminate || reflexivity);
    try (destruct s'; discriminate || reflexivity);
    try (destruct s, s'; discriminate || reflexivity).
  assert (P : Pos.compare_cont Eq m' m = CompOpp (Pos.compare_cont Eq m m'))
    by (symmetry; apply (Pos.compare_cont_antisym m m' Eq)).
  destruct s, s'; try discriminate; try reflexivity;
    rewrite (Z.compare_antisym e e'), P;
    destruct (e ?= e')%Z; simpl; try discriminate; try reflexivity;
    destruct (Pos.compare_cont Eq m m'); simpl; discriminate || reflexivity.
Qed.

Lemma ltb_not_leb (x y : float) : (x <? y) = true -> (y <=? x) = false.
Proof.
  rewrite ltb_spec, leb_spec. unfold SFltb, SFleb.
  destruct (SFcompare (Prim2SF x) (Prim2SF y)) as [[| |]|] eqn:E; try discriminate.
  intros _. now rewrite (SFcompare_Lt_Gt _ _ E).
Qed.

Lemma binary_round_aux_unsigned (m e : Z) (l : location) :
  SFunsigned (binary_round_aux prec emax false m e l) = true.
Proof.
  unfold binary_round_aux.
  destruct (shr_fexp prec emax m e l) as [mrs' e'].
  destruct (shr_fexp prec emax _ e' loc_Exact) as [mrs'' e''].
  destruct (shr_m mrs''); try reflexivity.
  destruct (e'' <=? emax - prec)%Z; reflexivity.
Qed.

Lemma of_count_unsigned (n : nat) : SFunsigned (Prim2SF (Np.of_count n)) = true.
Proof.
  unfold Np.of_count. rewrite of_uint63_spec.
  pose proof (Uint63.to_Z_bounded (Uint63.of_Z (Z.of_nat n))) as B.
  destruct (Uint63.to_Z (Uint63.of_Z (Z.of_nat n))) as [|p|p]; try reflexivity.
  - unfold binary_normalize, binary_round.
    destruct (shl_align _ _ _) as [mz ez]. apply binary_round_aux_unsigned.
  - lia.
Qed.

Lemma positive_unsigned (x : float) : (0 <? x) = true -> SFunsigned (Prim2SF x) = true.
Proof.
  rewrite ltb_spec. change (Prim2SF 0) with (S754_zero false). unfold SFltb.
  destruct (Prim2SF x) as [s|s| |s m e]; simpl; try discriminate;
    destruct s; try discriminate; reflexivity.
Qed.

Lemma SFmul_unsigned (x y : spec_float) :
  SFunsigned x = true -> SFunsigned y = true -> SFunsigned (SF64mul x y) = true.
Proof.
  destruct x as [s|s| |s m e], y as [s'|s'| |s' m' e']; simpl; intros Hx Hy;
    try reflexivity; try (destruct s, s'; try discriminate; reflexivity).
  destruct s, s'; try discriminate. apply binary_round_aux_unsigned.
Qed.

Lemma ceil_unsigned (x : float) (k : Z) :
  SFunsigned (Prim2SF x) = true -> Np.ceil x = Returns k -> (0 <= k)%Z.
Proof.
  unfold Np.ceil. destruct (Prim2SF x) as [s|s| |s m e]; intros Hs H;
    try discriminate.
  - apply Returns_inj in H. lia.
  - destruct s; [discriminate|]. apply Returns_inj in H. subst k.
    destruct (0 <=? e)%Z eqn:E.
    + apply Z.mul_nonneg_nonneg; [lia|]. apply Z.pow_nonneg. lia.
    + assert (Z.neg m / 2 ^ (- e) <= 0)%Z; [|lia].
      apply Z.div_le_upper_bound; [apply Z.pow_pos_nonneg; lia | lia].
Qed.

(** The sizes of the two parts, for a fraction strictly inside (0, 1) that
    leaves something to train on. *)
Lemma validate_shuffle_split_inside (N : nat) (f : float) (k : Z) :
  (0 <? f) = true -> (f <? 1) = true ->
  Np.ceil (f * Np.of_count N) = Returns k -> (k < Z.of_nat N)%Z ->
  Sk.validate_shuffle_split (Z.of_nat N) f = Returns (Z.of_nat N - k, k)%Z
  /\ (0 <= k)%Z.
Proof.
  intros H0 H1 Hk Hlt. unfold Sk.validate_shuffle_split.
  rewrite (ltb_not_leb _ _ H0), (ltb_not_leb _ _ H1). simpl.
  rewrite Nat2Z.id, Hk. simpl.
  destruct (Z.of_nat N <? Z.of_nat N - k + k)%Z eqn:E; [lia|].
  destruct (Z.of_nat N - k =? 0)%Z eqn:E'; [lia|].
  split; [reflexivity|].
  apply (ceil_unsigned (f * Np.of_count N)); [|exact Hk].
  rewrite mul_spec. apply SFmul_unsigned.
  - now apply positive_unsigned.
  - apply of_count_unsigned.
Qed.

End SplitSizes.

Section PrepareFacts.
Context {arith : ScalerArithmetic}.

Lemma scale_step_lengths s (data te : Series) sc prices tail :
  scale_step s data te = Returns (sc, prices, tail) ->
  length prices = length data /\ length tail = length te.
Proof.
  unfold scale_step. destruct s as [[s|]|]; intros H; try discriminate.
  - bind_inv H. destruct a as [s' train_data]. bind_inv H.
    apply Returns_inj in H. injection H as _ <- <-.
    unfold Sk.fit_transform in E. bind_inv E. apply Returns_inj in E.
    injection E as _ <-.
    unfold Sk.transform in E0. bind_inv E0. bind_inv E0. apply Returns_inj in E0.
    subst a. unfold values. now rewrite !length_map.
  - apply Returns_inj in H. injection H as _ <- <-.
    unfold values. now rewrite !length_map.
Qed.

Lemma make_windows_all_counts prices dates n_in n_pred :
  let w := make_windows prices dates n_in n_pred in
  length (next_n_day_prices w) = count w /\ length (input_dates w) = count w
  /\ length (next_n_day_dates w) = count w
  /\ count w = Z.to_nat (len prices - n_in - n_pred).
Proof.
  intros w. unfold count.
  pose proof (make_windows_count prices dates n_in n_pred) as H.
  cbv zeta in H. fold w in H. destruct H as (H1 & H2 & H3 & H4).
  rewrite H1, H2, H3, H4. auto.
Qed.

(** The split, once the positions are known to lie inside the arrays. *)
Lemma train_test_split_picks (w : Windows) f shuffle perm train test :
  length (next_n_day_prices w) = count w -> length (input_dates w) = count w ->
  length (next_n_day_dates w) = count w ->
  Sk.split_indices (Z.of_nat (count w)) f shuffle perm = Returns (train, test) ->
  Forall (fun i => 0 <= i < Z.of_nat (count w))%Z train ->
  Forall (fun i => 0 <= i < Z.of_nat (count w))%Z test ->
  Sk.train_test_split (input_prices w) (next_n_day_prices w)
                      (input_dates w) (next_n_day_dates w) f shuffle perm =
  Returns (input_prices (pick w train), input_prices (pick w test),
           next_n_day_prices (pick w train), next_n_day_prices (pick w test),
           input_dates (pick w train), input_dates (pick w test),
           next_n_day_dates (pick w train), next_n_day_dates (pick w test)).
Proof.
  intros L1 L2 L3 Hs Htr Hte. unfold Sk.train_test_split.
  fold (count w). rewrite L1, L2, L3, Nat.eqb_refl. cbn [andb negb].
  unfold len. fold (count w). rewrite Hs. cbn [bind].
  rewrite (safe_indexing_in_range (input_prices w) [] train),
          (safe_indexing_in_range (input_prices w) [] test),
          (safe_indexing_in_range (next_n_day_prices w) [] train),
          (safe_indexing_in_range (next_n_day_prices w) [] test),
          (safe_indexing_in_range (input_dates w) [] train),
          (safe_indexing_in_range (input_dates w) [] test),
          (safe_indexing_in_range (next_n_day_dates w) [] train),
          (safe_indexing_in_range (next_n_day_dates w) [] test);
    unfold len; rewrite ?L1, ?L2, ?L3; fold (count w); try assumption.
  reflexivity.
Qed.

(** A run that gets through the scaling and has its positions in range
    returns the picked windows. *)
Lemma prepare_returns_picks P perm data n_in n_pred f s_end_date no_shuffle
      sc prices tail train test :
  scale_step (select_scaler P) (cut s_end_date data)
             (last_rows n_in (cut s_end_date data)) = Returns (sc, prices, tail) ->
  let w := make_windows prices (index (cut s_end_date data)) n_in n_pred in
  (1 <= count w)%nat ->
  Sk.split_indices (Z.of_nat (count w)) f no_shuffle perm = Returns (train, test) ->
  Forall (fun i => 0 <= i < Z.of_nat (count w))%Z train ->
  Forall (fun i => 0 <= i < Z.of_nat (count w))%Z test ->
  exists out,
    prepare_scale_train_valid_test P perm data n_in n_pred f s_end_date no_shuffle
    = Returns (Ready out)
    /\ train_part out = pick w train /\ valid_part out = pick w test
    /\ test_data out = tail
    /\ dates_test out = index (last_rows n_in (cut s_end_date data))
    /\ scaler out = sc.
Proof.
  intros Hscale w Hcount Hs Htr Hte.
  destruct (make_windows_all_counts prices (index (cut s_end_date data)) n_in n_pred)
    as (L1 & L2 & L3 & L4). fold w in L1, L2, L3, L4.
  destruct (scale_step_lengths _ _ _ _ _ _ Hscale) as [Lp _].
  unfold prepare_scale_train_valid_test.
  assert (G : match s_end_date with
              | Some _ => (n_in + n_pred >? len (cut s_end_date data))%Z
              | None => false
              end = false).
  { destruct s_end_date; [|reflexivity].
    rewrite Z.gtb_ltb. apply Z.ltb_ge. unfold len in *. lia. }
  rewrite G, Hscale. cbn [bind]. fold w.
  rewrite (train_test_split_picks w f no_shuffle perm train test L1 L2 L3 Hs Htr Hte).
  cbn [bind]. eexists. split; [reflexivity|]. repeat split.
Qed.

End PrepareFacts.

Section SplitFacts.
Context {arith : ScalerArithmetic}.
Open Scope float_scope.

Lemma pick_first_pairs (w : Windows) (n : Z) :
  length (next_n_day_prices w) = count w -> length (input_dates w) = count w ->
  length (next_n_day_dates w) = count w ->
  (0 <= n <= Z.of_nat (count w))%Z ->
  pick w (py_range n) = first_pairs (Z.to_nat n) w.
Proof.
  intros L1 L2 L3 Hn. unfold pick, first_pairs, py_range.
  rewrite !select_py_range2 by (unfold len; rewrite ?L1, ?L2, ?L3; fold (count w); lia).
  rewrite Z.sub_0_r. reflexivity.
Qed.

Lemma pick_pairs_from (w : Windows) (n : Z) :
  length (next_n_day_prices w) = count w -> length (input_dates w) = count w ->
  length (next_n_day_dates w) = count w ->
  (0 <= n <= Z.of_nat (count w))%Z ->
  pick w (py_range2 n (Z.of_nat (count w))) = pairs_from (Z.to_nat n) w.
Proof.
  intros L1 L2 L3 Hn. unfold pick, pairs_from.
  rewrite !select_py_range2 by (unfold len; rewrite ?L1, ?L2, ?L3; fold (count w); lia).
  f_equal; apply firstn_all2; rewrite length_skipn, ?L1, ?L2, ?L3; fold (count w); lia.
Qed.

Lemma count_pick (w : Windows) (idx : list Z) : count (pick w idx) = length idx.
Proof. apply length_select. Qed.

Lemma count_pairs_from (w : Windows) (n : nat) : count (pairs_from n w) = (count w - n)%nat.
Proof. apply length_skipn. Qed.

Lemma split_indices_ordered (N : nat) (f : float) (k : Z) perm :
  (0 <? f) = true -> (f <? 1) = true ->
  Np.ceil (f * Np.of_count N) = Returns k -> (k < Z.of_nat N)%Z ->
  (0 <= k)%Z /\
  Sk.split_indices (Z.of_nat N) f false perm =
  Returns (py_range (Z.of_nat N - k), py_range2 (Z.of_nat N - k) (Z.of_nat N)).
Proof.
  intros H0 H1 Hk Hlt.
  destruct (validate_shuffle_split_inside N f k H0 H1 Hk Hlt) as [Hv Hk0].
  split; [exact Hk0|].
  unfold Sk.split_indices. rewrite Hv. cbn [bind].
  now replace (Z.of_nat N - k + k)%Z with (Z.of_nat N) by lia.
Qed.

Lemma split_indices_shuffled (N : nat) (f : float) (k : Z) perm :
  (0 <? f) = true -> (f <? 1) = true ->
  Np.ceil (f * Np.of_count N) = Returns k -> (0 < k < Z.of_nat N)%Z ->
  length (perm (Z.of_nat N)) = N ->
  Sk.split_indices (Z.of_nat N) f true perm =
  Returns (skipn (Z.to_nat k) (perm (Z.of_nat N)),
           firstn (Z.to_nat k) (perm (Z.of_nat N))).
Proof.
  intros H0 H1 Hk [Hpos Hlt] Hlen.
  destruct (validate_shuffle_split_inside N f k H0 H1 Hk Hlt) as [Hv Hk0].
  unfold Sk.split_indices. rewrite Hv. cbn [bind].
  replace ((k <=? 0)%Z || (Z.of_nat N <=? k)%Z || (Z.of_nat N - k <=? 0)%Z
           || (Z.of_nat N <=? Z.of_nat N - k)%Z) with false
    by (symmetry; rewrite !orb_false_iff; repeat split; apply Z.leb_gt; lia).
  rewrite py_slice_firstn by assumption.
  rewrite py_slice_skipn by (unfold len; lia).
  reflexivity.
Qed.

End SplitFacts.

Section Inversion.
Context {arith : ScalerArithmetic}.

Lemma safe_indexing_returns {A : Type} (l : list A) (d : A) idx r :
  Sk.safe_indexing l idx = Returns r ->
  r = select l d (map (position (len l)) idx)
  /\ Forall (fun i => 0 <= i < len l)%Z (map (position (len l)) idx).
Proof.
  unfold Sk.safe_indexing. revert r.
  induction idx as [|i idx IH]; intros r H; cbn [mapM] in H.
  - apply Returns_inj in H. subst r. split; [reflexivity|constructor].
  - bind_inv H. bind_inv H. apply Returns_inj in H. subst r.
    destruct (item_returns l i a d E) as [Hi ->].
    destruct (IH _ eq_refl) as [-> Hidx].
    split; [reflexivity|]. now constructor.
Qed.

(** What a split that returns has returned: the windows at two lists of
    positions. *)
Lemma train_test_split_returns (w : Windows) f shuffle perm a1 a2 b1 b2 c1 c2 d1 d2 :
  length (next_n_day_prices w) = count w -> length (input_dates w) = count w ->
  length (next_n_day_dates w) = count w ->
  Sk.train_test_split (input_prices w) (next_n_day_prices w)
                      (input_dates w) (next_n_day_dates w) f shuffle perm
  = Returns (a1, a2, b1, b2, c1, c2, d1, d2) ->
  exists train test,
    Forall (fun i => 0 <= i < Z.of_nat (count w))%Z train
    /\ Forall (fun i => 0 <= i < Z.of_nat (count w))%Z test
    /\ mkWindows c1 a1 b1 d1 = pick w train
    /\ mkWindows c2 a2 b2 d2 = pick w test.
Proof.
  intros L1 L2 L3 H. unfold Sk.train_test_split in H.
  destruct (negb _); [discriminate|].
  bind_inv H. destruct a as [train test].
  do 8 bind_inv H. apply Returns_inj in H.
  injection H as <- <- <- <- <- <- <- <-.
  repeat match goal with
         | E : Sk.safe_indexing _ _ = Returns _ |- _ =>
             apply (safe_indexing_returns _ []) in E; destruct E as [-> ?]
         end.
  unfold len in *. rewrite ?L1, ?L2, ?L3 in *. fold (count w) in *.
  exists (map (position (Z.of_nat (count w))) train),
         (map (position (Z.of_nat (count w))) test).
  repeat split; assumption.
Qed.

(** What a run that returns its eleven values has done. *)
Lemma prepare_ready_inv P perm data n_in n_pred f s_end_date no_shuffle out :
  prepare_scale_train_valid_test P perm data n_in n_pred f s_end_date no_shuffle
  = Returns (Ready out) ->
  exists prices train test,
    scale_step (select_scaler P) (cut s_end_date data)
               (last_rows n_in (cut s_end_date data))
    = Returns (scaler out, prices, test_data out)
    /\ dates_test out = index (last_rows n_in (cut s_end_date data))
    /\ let w := make_windows prices (index (cut s_end_date data)) n_in n_pred in
       Forall (fun i => 0 <= i < Z.of_nat (count w))%Z train
       /\ Forall (fun i => 0 <= i < Z.of_nat (count w))%Z test
       /\ train_part out = pick w train /\ valid_part out = pick w test.
Proof.
  unfold prepare_scale_train_valid_test. intros H.
  destruct (match s_end_date with Some _ => _ | None => false end); [discriminate|].
  bind_inv H. destruct a as [[sc prices] tail].
  bind_inv H. destruct a as [[[[[[[a1 a2] b1] b2] c1] c2] d1] d2].
  apply Returns_inj in H. injection H as <-.
  destruct (make_windows_all_counts prices (index (cut s_end_date data)) n_in n_pred)
    as (L1 & L2 & L3 & _).
  destruct (train_test_split_returns _ _ _ _ _ _ _ _ _ _ _ _ L1 L2 L3 E0)
    as (train & test & Htr & Hte & Ht & Hv).
  exists prices, train, test. cbn [scaler test_data dates_test].
  repeat split; assumption.
Qed.

End Inversion.

Section RawRows.
Context {arith : ScalerArithmetic}.

Lemma py_slice_map {A B : Type} (g : A -> B) (l : list A) a b :
  py_slice (map g l) a b = map g (py_slice l a b).
Proof.
  unfold py_slice, len. rewrite length_map.
  now rewrite <- firstn_map, <- skipn_map.
Qed.

Lemma nth_select {A : Type} (l : list A) d idx (k : nat) :
  (k < length idx)%nat ->
  nth k (select l d idx) d = nth (Z.to_nat (nth k idx 0%Z)) l d.
Proof.
  intros H. unfold select.
  rewrite (nth_indep _ d (nth (Z.to_nat 0%Z) l d)) by now rewrite length_map.
  apply (map_nth (fun i => nth (Z.to_nat i) l d)).
Qed.

Lemma nth_slices {A : Type} (arr : list A) from upto (n j : Z) :
  (0 <= j < n)%Z ->
  nth (Z.to_nat j) (slices arr from upto (py_range n)) [] =
  py_slice arr (Some (from j)) (Some (upto j)).
Proof.
  intros H. unfold slices, py_range, py_range2. rewrite map_map.
  rewrite (nth_indep _ [] ((fun k => py_slice arr (Some (from (0 + Z.of_nat k)%Z))
                                          (Some (upto (0 + Z.of_nat k)%Z))) 0%nat))
    by (rewrite length_map, length_seq; lia).
  rewrite (map_nth (fun k => py_slice arr (Some (from (0 + Z.of_nat k)%Z))
                                      (Some (upto (0 + Z.of_nat k)%Z)))).
  rewrite seq_nth by lia. cbn [Nat.add].
  now replace (0 + Z.of_nat (Z.to_nat j))%Z with j by lia.
Qed.

(** Every pair the loop makes from the two columns of a series is made of
    rows of that series. *)
Lemma make_windows_rows (data : Series) n_in n_pred (j : Z) :
  let w := make_windows (values data) (index data) n_in n_pred in
  (0 <= j < Z.of_nat (count w))%Z ->
  rows_of_series data n_in n_pred w (Z.to_nat j).
Proof.
  intros w Hj.
  destruct (make_windows_all_counts (values data) (index data) n_in n_pred)
    as (_ & _ & _ & Hc). fold w in Hc.
  assert (Hlen : len (values data) = len data)
    by (unfold len, values; now rewrite length_map).
  assert (Hn : (0 <= j < len (values data) - n_in - n_pred)%Z) by lia.
  exists j. split; [lia|].
  unfold w. rewrite make_windows_maps. cbn [input_prices input_dates
    next_n_day_prices next_n_day_dates].
  assert (Hd : len (index data) = len (values data))
    by (unfold len, values, index; now rewrite !length_map).
  rewrite !nth_slices by assumption.
  unfold values, index. now rewrite !py_slice_map.
Qed.

Lemma pick_rows (data : Series) n_in n_pred idx (k : nat) :
  let w := make_windows (values data) (index data) n_in n_pred in
  Forall (fun i => 0 <= i < Z.of_nat (count w))%Z idx ->
  (k < length idx)%nat ->
  rows_of_series data n_in n_pred (pick w idx) k.
Proof.
  intros w Hidx Hk.
  assert (Hj : (0 <= nth k idx 0 < Z.of_nat (count w))%Z).
  { rewrite Forall_forall in Hidx. apply Hidx. now apply nth_In. }
  destruct (make_windows_rows data n_in n_pred _ Hj) as (i & Hi & H1 & H2 & H3 & H4).
  fold w in H1, H2, H3, H4.
  exists i. split; [exact Hi|].
  unfold pick. cbn [input_prices input_dates next_n_day_prices next_n_day_dates].
  rewrite !nth_select by assumption. auto.
Qed.

Lemma parallel_pick (w : Windows) idx : parallel (pick w idx).
Proof. unfold parallel, pick, count; cbn. now rewrite !length_select. Qed.

End RawRows.

(* ================================================================== *)
(** * The scaler of a run *)
(* ================================================================== *)

Lemma select_scaler_fresh P s :
  select_scaler P = Some (Some s) -> fit_log s = [].
Proof.
  unfold select_scaler. destruct P as [name|]; [|discriminate].
  repeat match goal with
         | |- context [String.eqb ?a ?b] => destruct (String.eqb a b)
         end; intros H; try discriminate; now injection H as <-.
Qed.

(** The scaler a run returns has been fit once, on the whole (cut) series. *)
Lemma prepare_fit_log {arith : ScalerArithmetic}
    P perm data n_in n_pred f s_end_date no_shuffle out s :
  prepare_scale_train_valid_test P perm data n_in n_pred f s_end_date no_shuffle
  = Returns (Ready out) ->
  scaler out = Some s ->
  fit_log s = [values (cut s_end_date data)].
Proof.
  intros H Hs.
  destruct (prepare_ready_inv _ _ _ _ _ _ _ _ _ H) as (prices & _ & _ & Hscale & _).
  rewrite Hs in Hscale. unfold scale_step in Hscale.
  destruct (select_scaler P) as [[s0|]|] eqn:Sel; try discriminate.
  bind_inv Hscale. destruct a as [s' train_data]. bind_inv Hscale.
  apply Returns_inj in Hscale. injection Hscale as <- _ _.
  unfold Sk.fit_transform in E. bind_inv E. apply Returns_inj in E.
  injection E as <- _. cbn [fit_log].
  now rewrite (select_scaler_fresh _ _ Sel).
Qed.

(** [forecast] with a scaler: one call of the model, then the inverse
    transform of that very scaler. *)
Lemma forecast_uses_given_scaler {arith : ScalerArithmetic}
    input_values future_dates model s prediction future_values :
  model input_values = Returns prediction ->
  Sk.inverse_transform s prediction = Returns future_values ->
  length future_values = length future_dates ->
  forecast input_values future_dates model (Some s)
  = Returns (combine future_dates future_values).
Proof.
  intros Hm Hi Hl. unfold forecast.
  assert (Hc : scaler_class s <> Normalizer).
  { intros Hn. unfold Sk.inverse_transform in Hi. rewrite Hn in Hi. discriminate Hi. }
  destruct (scaler_class s); try (now elim Hc);
    rewrite Hm; cbn [bind]; rewrite Hi; cbn [bind];
    now rewrite Hl, Nat.eqb_refl.
Qed.

(* ================================================================== *)
(** * The claims *)
(* ================================================================== *)

(** C1 (the code departs from the claim).  Eight daily prices,
    [n_input_days = 3], [n_predict_days = 1], no scaling, an unshuffled half
    split.  The held-out tail is the days 6, 7 and 8; the last validation
    pair has day 6 among its input dates and day 7 as its target date, and
    the pair before it has day 6 as its target date: the windows are cut from
    the whole series, tail included. *)
Theorem windows_reach_into_held_out_tail {arith : ScalerArithmetic}
    (perm : Z -> list Z) :
  exists out,
    prepare_scale_train_valid_test (Some "none"%string) perm eight_days 3 1 0.5
                                   None false
    = Returns (Ready out)
    /\ dates_test out = [6; 7; 8]%Z
    /\ test_data out = [6; 7; 8]%float
    /\ X_dates_valid out = [[3; 4; 5]; [4; 5; 6]]%Z
    /\ y_dates_valid out = [[6]; [7]]%Z
    /\ X_valid out = [[3; 4; 5]; [4; 5; 6]]%float
    /\ y_valid out = [[6]; [7]]%float.
Proof.
  eexists. split; [vm_compute; reflexivity|]. repeat split.
Qed.

(** C2 (the code departs from the claim).  With min-max scaling on the same
    eight days, the scaler returned has been fit once, and on all eight
    prices: the three held-out ones are part of the sample, which is not the
    five training-eligible prices. *)
Theorem scaler_is_fit_on_held_out_tail_too {arith : ScalerArithmetic}
    (perm : Z -> list Z) :
  exists out s,
    prepare_scale_train_valid_test (Some "minmax"%string) perm eight_days 3 1 0.5
                                   None false
    = Returns (Ready out)
    /\ scaler out = Some s
    /\ scaler_class s = MinMaxScaler
    /\ fit_log s = [[1; 2; 3; 4; 5; 6; 7; 8]%float]
    /\ values (rows_before_last 3 eight_days) = [1; 2; 3; 4; 5]%float
    /\ fit_log s <> [values (rows_before_last 3 eight_days)].
Proof.
  eexists. eexists. split; [vm_compute; reflexivity|].
  split; [reflexivity|]. cbn [scaler_class fit_log]. repeat split.
  intros H. apply (f_equal (fun l => length (hd [] l))) in H.
  vm_compute in H. discriminate H.
Qed.

(** C3, against the claim as stated: without an end date the length is not
    checked.  Five days with [n_input_days = 10] and [n_predict_days = 5]
    give no window, and the split raises. *)
Lemma short_series_without_end_date_raises :
  (len five_days < 10 + 5)%Z
  /\ prepare_scale_train_valid_test (Some "none"%string) py_range five_days 10 5
                                    0.25 None false
     = Raises (ValueError EmptyTrainSet).
Proof. split; vm_compute; reflexivity. Qed.

(** C3, amended.  When an end date is given and the series cut at it is
    shorter than [n_input_days + n_predict_days], the function returns the
    eleven [None] with the flag [True], and raises nothing, whatever the
    other arguments. *)
Theorem short_series_at_end_date_is_not_enough {arith : ScalerArithmetic}
    P perm (data : Series) (n_in n_pred : Z) (f : float) (d : date)
    (no_shuffle : bool) :
  (len (up_to d data) < n_in + n_pred)%Z ->
  prepare_scale_train_valid_test P perm data n_in n_pred f (Some d) no_shuffle
  = Returns NotEnoughData.
Proof.
  intros H. unfold prepare_scale_train_valid_test. cbn [cut].
  rewrite Z.gtb_ltb. apply Z.ltb_lt in H. now rewrite H.
Qed.

Lemma short_series_at_end_date_is_not_enough_witness :
  (len (up_to 5%Z five_days) < 10 + 5)%Z
  /\ prepare_scale_train_valid_test (Some "none"%string) py_range five_days 10 5
                                    0.25 (Some 5%Z) false
     = Returns NotEnoughData.
Proof.
  split; [vm_compute; reflexivity|].
  apply (short_series_at_end_date_is_not_enough
           (Some "none"%string) py_range five_days 10 5 0.25 5%Z false).
  vm_compute; reflexivity.
Defined.

(** C4 (the code departs from the claim).  On the eight days with
    [n_input_days = 3] and [n_predict_days = 1] the training-eligible series
    has 5 rows, for which the claim counts 5 - 3 - 1 = 1 window pair; the
    function returns 4 pairs, 8 - 3 - 1, two in each part. *)
Theorem window_pairs_counted_on_whole_series {arith : ScalerArithmetic}
    (perm : Z -> list Z) :
  exists out,
    prepare_scale_train_valid_test (Some "none"%string) perm eight_days 3 1 0.5
                                   None false
    = Returns (Ready out)
    /\ len (rows_before_last 3 eight_days) = 5%Z
    /\ (len (rows_before_last 3 eight_days) - 3 - 1 = 1)%Z
    /\ (count (train_part out) + count (valid_part out) = 4)%nat
    /\ (len eight_days - 3 - 1 = 4)%Z.
Proof.
  eexists. split; [vm_compute; reflexivity|]. repeat split.
Qed.

(** C5, against the claim as stated: the fractions 0 and 1 pass
    [check_valid_frac], and the split rejects both; nothing is returned. *)
Lemma split_rejects_fractions_zero_and_one :
  check_valid_frac 0 = Returns 0%float
  /\ prepare_scale_train_valid_test (Some "none"%string) py_range eight_days 3 1
                                    0 None false
     = Raises (ValueError TestSizeRange)
  /\ check_valid_frac 1 = Returns 1%float
  /\ prepare_scale_train_valid_test (Some "none"%string) py_range eight_days 3 1
                                    1 None false
     = Raises (ValueError TestSizeRange).
Proof. repeat split; vm_compute; reflexivity. Qed.

(** C5, amended.  For positive day counts (the windows then all have one
    shape) and a fraction strictly between 0 and 1, shuffled or not: when the
    scaling step goes through, [k] is the ceiling of the binary64 product of
    the fraction and the number of window pairs, and [0 < k] is smaller than
    that number (a pair is left to train on), the function returns; the
    training and validation arrays are the window pairs at two lists of
    positions that together are a rearrangement of all the positions, so no
    pair is dropped or repeated and the two sizes add up to the number of
    pairs.  [perm] is the draw of the random generator, a rearrangement of
    the positions. *)
Theorem split_conserves_window_pairs {arith : ScalerArithmetic}
    P perm data n_in n_pred (f : float) s_end_date no_shuffle sc prices tail (k : Z) :
  (0 < n_in)%Z -> (0 < n_pred)%Z ->
  (0 <? f)%float = true -> (f <? 1)%float = true ->
  scale_step (select_scaler P) (cut s_end_date data)
             (last_rows n_in (cut s_end_date data)) = Returns (sc, prices, tail) ->
  let w := make_windows prices (index (cut s_end_date data)) n_in n_pred in
  Permutation (perm (Z.of_nat (count w))) (py_range (Z.of_nat (count w))) ->
  Np.ceil (f * Np.of_count (count w))%float = Returns k ->
  (0 < k < Z.of_nat (count w))%Z ->
  exists out train valid,
    prepare_scale_train_valid_test P perm data n_in n_pred f s_end_date no_shuffle
    = Returns (Ready out)
    /\ Permutation (train ++ valid) (py_range (Z.of_nat (count w)))
    /\ train_part out = pick w train /\ valid_part out = pick w valid
    /\ (count (train_part out) + count (valid_part out) = count w)%nat.
Proof.
  intros _ _ H0 H1 Hscale w Hperm Hk [Hpos Hlt].
  assert (Hin : forall idx, Permutation idx (py_range (Z.of_nat (count w))) ->
                Forall (fun i => 0 <= i < Z.of_nat (count w))%Z idx).
  { intros idx Hp. apply Forall_forall. intros i Hi.
    apply (Permutation_in _ Hp), py_range2_bounds in Hi. lia. }
  assert (Hsum : forall out train valid,
            Permutation (train ++ valid) (py_range (Z.of_nat (count w))) ->
            train_part out = pick w train -> valid_part out = pick w valid ->
            (count (train_part out) + count (valid_part out) = count w)%nat).
  { intros out train valid Hp -> ->. rewrite !count_pick, <- length_app.
    rewrite (Permutation_length Hp), length_py_range. lia. }
  assert (Hgo : forall train valid,
            Sk.split_indices (Z.of_nat (count w)) f no_shuffle perm
            = Returns (train, valid) ->
            Permutation (train ++ valid) (py_range (Z.of_nat (count w))) ->
            exists out train valid,
              prepare_scale_train_valid_test P perm data n_in n_pred f s_end_date
                no_shuffle = Returns (Ready out)
              /\ Permutation (train ++ valid) (py_range (Z.of_nat (count w)))
              /\ train_part out = pick w train /\ valid_part out = pick w valid
              /\ (count (train_part out) + count (valid_part out) = count w)%nat).
  { intros train valid Hs Hp.
    assert (Htv := Hin _ Hp). apply Forall_app in Htv. destruct Htv as [Htr Hva].
    destruct (prepare_returns_picks P perm data n_in n_pred f s_end_date no_shuffle
                sc prices tail train valid Hscale) as (out & Hout & Ht & Hv & _);
      try assumption.
    - destruct (split_indices_ordered (count w) f k perm H0 H1 Hk Hlt) as [Hk0 _].
      fold w. lia.
    - exists out, train, valid. fold w in Ht, Hv. repeat split; try assumption.
      now apply Hsum with (train := train) (valid := valid). }
  destruct no_shuffle.
  - assert (Hs := split_indices_shuffled (count w) f k perm H0 H1 Hk (conj Hpos Hlt)).
    rewrite (Permutation_length Hperm), length_py_range, Nat2Z.id in Hs.
    specialize (Hs eq_refl).
    apply (Hgo _ _ Hs).
    rewrite Permutation_app_comm, firstn_skipn. exact Hperm.
  - destruct (split_indices_ordered (count w) f k perm H0 H1 Hk Hlt) as [Hk0 Hs].
    apply (Hgo _ _ Hs).
    unfold py_range.
    now rewrite <- (py_range2_split 0 (Z.of_nat (count w) - k) (Z.of_nat (count w)))
      by lia.
Qed.

Lemma split_conserves_window_pairs_witness :
  let w := make_windows (values eight_days) (index eight_days) 3 1 in
  let perm := fun n => rev (py_range n) in
  ((0 < 3)%Z /\ (0 < 1)%Z
   /\ (0 <? 0.5)%float = true /\ (0.5 <? 1)%float = true
   /\ Permutation (perm (Z.of_nat (count w))) (py_range (Z.of_nat (count w)))
   /\ Np.ceil (0.5 * Np.of_count (count w))%float = Returns 2%Z
   /\ (0 < 2 < Z.of_nat (count w))%Z)
  /\ exists out train valid,
       prepare_scale_train_valid_test (Some "none"%string) perm eight_days 3 1 0.5
                                      None true
       = Returns (Ready out)
       /\ Permutation (train ++ valid) (py_range (Z.of_nat (count w)))
       /\ train_part out = pick w train /\ valid_part out = pick w valid
       /\ (count (train_part out) + count (valid_part out) = count w)%nat.
Proof.
  intros w perm.
  assert (Hp : Permutation (perm (Z.of_nat (count w))) (py_range (Z.of_nat (count w))))
    by (symmetry; apply Permutation_rev).
  split.
  - do 4 (split; [reflexivity|]). split; [exact Hp|].
    split; [vm_compute; reflexivity|]. split; vm_compute; reflexivity.
  - apply (split_conserves_window_pairs (Some "none"%string) perm eight_days 3 1 0.5
             None true None (values eight_days) (values (last_rows 3 eight_days)) 2).
    + reflexivity.
    + reflexivity.
    + reflexivity.
    + reflexivity.
    + reflexivity.
    + exact Hp.
    + vm_compute; reflexivity.
    + split; vm_compute; reflexivity.
Defined.

(** C6.  Without scaling ([PREPROCESSER] is ["none"] or [None]), whatever the
    function returns as training and validation arrays is made of rows of the
    (cut) series as they are: every input array is the column of values of
    [n_input_days] consecutive rows and its date array the column of their
    dates, every target array the values of the [n_predict_days] rows that
    follow, and no scaler is returned. *)
Theorem unscaled_arrays_are_raw_rows {arith : ScalerArithmetic}
    P perm (data : Series) (n_in n_pred : Z) (f : float) s_end_date
    (no_shuffle : bool) (out : Prepared) :
  P = None \/ P = Some "none"%string ->
  prepare_scale_train_valid_test P perm data n_in n_pred f s_end_date no_shuffle
  = Returns (Ready out) ->
  scaler out = None
  /\ parallel (train_part out) /\ parallel (valid_part out)
  /\ (forall k, (k < count (train_part out))%nat ->
        rows_of_series (cut s_end_date data) n_in n_pred (train_part out) k)
  /\ (forall k, (k < count (valid_part out))%nat ->
        rows_of_series (cut s_end_date data) n_in n_pred (valid_part out) k).
Proof.
  intros HP H.
  destruct (prepare_ready_inv _ _ _ _ _ _ _ _ _ H)
    as (prices & train & test & Hscale & _ & Htr & Hte & Ht & Hv).
  assert (Sel : select_scaler P = Some None) by (destruct HP as [-> | ->]; reflexivity).
  rewrite Sel in Hscale. cbn [scale_step] in Hscale.
  apply Returns_inj in Hscale. injection Hscale as Hsc Hprices _.
  subst prices. rewrite Ht, Hv.
  split; [now symmetry|].
  split; [apply parallel_pick|]. split; [apply parallel_pick|].
  split; intros k Hk; rewrite count_pick in Hk; now apply pick_rows.
Qed.

Lemma unscaled_arrays_are_raw_rows_witness :
  exists out,
    prepare_scale_train_valid_test (Some "none"%string) py_range eight_days 3 1 0.5
                                   None false
    = Returns (Ready out)
    /\ (scaler out = None
        /\ parallel (train_part out) /\ parallel (valid_part out)
        /\ (forall k, (k < count (train_part out))%nat ->
              rows_of_series (cut None eight_days) 3 1 (train_part out) k)
        /\ (forall k, (k < count (valid_part out))%nat ->
              rows_of_series (cut None eight_days) 3 1 (valid_part out) k)).
Proof.
  eexists. split; [vm_compute; reflexivity|].
  apply (unscaled_arrays_are_raw_rows (Some "none"%string) py_range eight_days 3 1
           0.5 None false).
  - right; reflexivity.
  - vm_compute; reflexivity.
Defined.

(** C7, against the claim as stated: a negative actual entry.  The function
    takes the absolute value of the whole ratio and returns 100 where the
    formula of the claim gives -100. *)
Lemma mape_of_negative_actual_is_positive :
  mean_absolute_percentage_error [-2]%float [-4]%float = Returns 100%float
  /\ mape_by_the_formula [-2]%float [-4]%float = (-100)%float
  /\ mean_absolute_percentage_error [-2]%float [-4]%float
     <> Returns (mape_by_the_formula [-2]%float [-4]%float).
Proof.
  split; [vm_compute; reflexivity|]. split; [vm_compute; reflexivity|].
  intros H.
  apply (f_equal (fun o => match o with
                           | Returns x => (x <? 0)%float
                           | Raises _ => false
                           end)) in H.
  vm_compute in H. discriminate H.
Qed.

(** C7, amended.  For two vectors of one length with every actual entry
    positive, the function computes mean(|actual - predicted| / actual) * 100
    in binary64 arithmetic; and the key figures of [10, 20] against [12, 18]
    are MAE 2, MSE 4, RMSE 2 and MAPE 15.000000000000002, the binary64 number
    next above 15. *)
Theorem mape_formula_on_positive_actuals :
  (forall y_true y_pred : list float,
      length y_true = length y_pred ->
      Forall (fun t => (0 <? t)%float = true) y_true ->
      mean_absolute_percentage_error y_true y_pred
      = Returns (mape_by_the_formula y_true y_pred))
  /\ (exists card,
        print_prediction_kpis [10; 20]%float [12; 18]%float = Returns card
        /\ MAE card = 2%float /\ MSE card = 4%float /\ RMSE card = 2%float
        /\ MAPE card = 0x1.e000000000001p+3%float
        /\ MAPE card = next_up 15).
Proof.
  split.
  - intros y_true y_pred Hlen Hpos. rewrite (ratio_of_equal_lengths _ _ Hlen).
    unfold mape_by_the_formula. do 3 f_equal.
    clear Hlen. revert y_pred.
    induction Hpos as [|t y_true Ht Hpos IH]; intros [|p y_pred]; simpl;
      try reflexivity.
    f_equal; [|apply IH].
    rewrite abs_div, (abs_positive _ Ht). reflexivity.
  - eexists. split; [vm_compute; reflexivity|].
    repeat split; vm_compute; reflexivity.
Qed.

Lemma mape_formula_on_positive_actuals_witness :
  (length [10; 20]%float = length [12; 18]%float
   /\ Forall (fun t => (0 <? t)%float = true) [10; 20]%float)
  /\ mean_absolute_percentage_error [10; 20]%float [12; 18]%float
     = Returns (mape_by_the_formula [10; 20]%float [12; 18]%float).
Proof.
  assert (Hpos : Forall (fun t => (0 <? t)%float = true) [10; 20]%float)
    by (repeat constructor).
  split; [split; [reflexivity | exact Hpos]|].
  apply (proj1 mape_formula_on_positive_actuals); [reflexivity | exact Hpos].
Defined.

(** C8.  For two vectors of different lengths the key figures are not
    computed: the call raises the [ValueError] of numpy's broadcasting or of
    scikit-learn's length check, and no scorecard, whole or partial, is
    returned.  So it is for [1, 2, 3] against [1, 2]. *)
Theorem kpis_reject_unequal_lengths (real pred : list float) :
  length real <> length pred ->
  exists e, print_prediction_kpis real pred = Raises e /\ shape_mismatch e = true.
Proof.
  intros Hne. unfold print_prediction_kpis.
  assert (Hr2 : Sk.r2_score real pred = Raises (ValueError InconsistentLength)).
  { unfold Sk.r2_score, Sk.check_reg_targets.
    apply Nat.eqb_neq in Hne. rewrite Hne. reflexivity. }
  rewrite Hr2.
  destruct (mean_absolute_percentage_error real pred) as [v|e] eqn:E; cbn [bind].
  - exists (ValueError InconsistentLength). auto.
  - exists e. split; [reflexivity|].
    now rewrite (mape_raises_broadcast _ _ _ E).
Qed.

Lemma kpis_reject_unequal_lengths_witness :
  length [1; 2; 3]%float <> length [1; 2]%float
  /\ exists e, print_prediction_kpis [1; 2; 3]%float [1; 2]%float = Raises e
               /\ shape_mismatch e = true.
Proof.
  assert (Hne : length [1; 2; 3]%float <> length [1; 2]%float) by discriminate.
  split; [exact Hne|].
  apply (kpis_reject_unequal_lengths [1; 2; 3]%float [1; 2]%float Hne).
Defined.

(** C9, against the claim as stated: one window pair and the fraction one
    half.  The claim gives no training pair and one validation pair; the
    split raises instead, for want of a training pair. *)
Lemma single_pair_unshuffled_split_raises :
  count (make_windows (values four_days) (index four_days) 2 1) = 1%nat
  /\ Np.ceil (0.5 * Np.of_count 1)%float = Returns 1%Z
  /\ prepare_scale_train_valid_test (Some "none"%string) py_range four_days 2 1
                                    0.5 None false
     = Raises (ValueError EmptyTrainSet).
Proof. repeat split; vm_compute; reflexivity. Qed.

(** C9, amended.  Unshuffled, for positive day counts and a fraction strictly
    between 0 and 1: when the scaling step goes through, [k] is the ceiling of the binary64 product
    of the fraction and the number [N] of window pairs, and [k < N], the
    function returns; the training arrays are the first [N - k] window pairs
    and the validation arrays the last [k], both in their order. *)
Theorem unshuffled_split_is_chronological {arith : ScalerArithmetic}
    P perm data n_in n_pred (f : float) s_end_date sc prices tail (k : Z) :
  (0 < n_in)%Z -> (0 < n_pred)%Z ->
  (0 <? f)%float = true -> (f <? 1)%float = true ->
  scale_step (select_scaler P) (cut s_end_date data)
             (last_rows n_in (cut s_end_date data)) = Returns (sc, prices, tail) ->
  let w := make_windows prices (index (cut s_end_date data)) n_in n_pred in
  Np.ceil (f * Np.of_count (count w))%float = Returns k ->
  (k < Z.of_nat (count w))%Z ->
  exists out,
    prepare_scale_train_valid_test P perm data n_in n_pred f s_end_date false
    = Returns (Ready out)
    /\ train_part out = first_pairs (count w - Z.to_nat k) w
    /\ valid_part out = pairs_from (count w - Z.to_nat k) w
    /\ count (valid_part out) = Z.to_nat k.
Proof.
  intros _ _ H0 H1 Hscale w Hk Hlt.
  destruct (split_indices_ordered (count w) f k perm H0 H1 Hk Hlt) as [Hk0 Hs].
  destruct (make_windows_all_counts prices (index (cut s_end_date data)) n_in n_pred)
    as (L1 & L2 & L3 & _). fold w in L1, L2, L3.
  assert (Hc : (1 <= count w)%nat) by lia.
  destruct (prepare_returns_picks P perm data n_in n_pred f s_end_date false
              sc prices tail _ _ Hscale Hc Hs)
    as (out & Hout & Htrain & Hvalid & _).
  - apply Forall_py_range2; fold w; lia.
  - apply Forall_py_range2; fold w; lia.
  - exists out. fold w in Htrain, Hvalid.
    rewrite Hvalid, Htrain.
    rewrite pick_first_pairs, pick_pairs_from by (assumption || lia).
    replace (Z.to_nat (Z.of_nat (count w) - k)) with (count w - Z.to_nat k)%nat by lia.
    rewrite count_pairs_from. repeat split; try assumption. lia.
Qed.

Lemma unshuffled_split_is_chronological_witness :
  let w := make_windows (values eight_days) (index eight_days) 3 1 in
  ((0 < 3)%Z /\ (0 < 1)%Z
   /\ (0 <? 0.5)%float = true /\ (0.5 <? 1)%float = true
   /\ Np.ceil (0.5 * Np.of_count (count w))%float = Returns 2%Z
   /\ (2 < Z.of_nat (count w))%Z)
  /\ exists out,
       prepare_scale_train_valid_test (Some "none"%string) py_range eight_days 3 1
                                      0.5 None false
       = Returns (Ready out)
       /\ train_part out = first_pairs (count w - Z.to_nat 2) w
       /\ valid_part out = pairs_from (count w - Z.to_nat 2) w
       /\ count (valid_part out) = Z.to_nat 2.
Proof.
  intros w. split.
  - do 4 (split; [reflexivity|]). split; vm_compute; reflexivity.
  - apply (unshuffled_split_is_chronological (Some "none"%string) py_range
             eight_days 3 1 0.5 None None (values eight_days)
             (values (last_rows 3 eight_days)) 2).
    + reflexivity.
    + reflexivity.
    + reflexivity.
    + reflexivity.
    + reflexivity.
    + vm_compute; reflexivity.
    + vm_compute; reflexivity.
Defined.

(** C10.  For two vectors of one length, when some actual entry is zero and
    the predicted entry at the same place differs from it, the computation
    raises nothing and returns an infinity or [nan]. *)
Theorem mape_zero_actual_not_finite (y_true y_pred : list float) (a p : float) :
  length y_true = length y_pred ->
  In (a, p) (combine y_true y_pred) ->
  (a =? 0)%float = true -> (p =? a)%float = false ->
  exists v, mean_absolute_percentage_error y_true y_pred = Returns v
            /\ Np.isfinite v = false.
Proof.
  intros Hlen Hin Ha Hp.
  rewrite (ratio_of_equal_lengths _ _ Hlen).
  eexists. split; [reflexivity|].
  unfold Np.isfinite. rewrite is_finite_spec.
  apply (f_equal negb (y := true)).
  apply nonfinite_mul_l. unfold Np.mean. apply nonfinite_div_l.
  apply nonfinite_sum with (x := abs ((a - p) / a)%float).
  - apply (in_map (fun '(t, q) => abs ((t - q) / t)%float) _ (a, p)). exact Hin.
  - apply nonfinite_abs. now apply nonfinite_ratio_at_zero.
Qed.

Lemma mape_zero_actual_not_finite_witness :
  (length [0; 1]%float = length [1; 1]%float
   /\ In (0%float, 1%float) (combine [0; 1]%float [1; 1]%float)
   /\ (0 =? 0)%float = true /\ (1 =? 0)%float = false)
  /\ exists v, mean_absolute_percentage_error [0; 1]%float [1; 1]%float = Returns v
               /\ Np.isfinite v = false.
Proof.
  assert (Hin : In (0%float, 1%float) (combine [0; 1]%float [1; 1]%float))
    by (left; reflexivity).
  split; [split; [reflexivity|]; split; [exact Hin|]; split; reflexivity|].
  apply (mape_zero_actual_not_finite [0; 1]%float [1; 1]%float 0%float 1%float);
    [reflexivity | exact Hin | reflexivity | reflexivity].
Defined.

(* ================================================================== *)
(** * Further properties of [prepare_scale_train_valid_test] *)
(* ================================================================== *)

(** X1.  The function answers with the eleven [None] and the flag [True] in
    one case only: an end date is given and the series cut at it has fewer
    than [n_input_days + n_predict_days] rows.  Without an end date it never
    does, however short the series. *)
Theorem not_enough_data_only_under_end_date {arith : ScalerArithmetic}
    P perm (data : Series) (n_in n_pred : Z) (f : float) s_end_date
    (no_shuffle : bool) :
  prepare_scale_train_valid_test P perm data n_in n_pred f s_end_date no_shuffle
  = Returns NotEnoughData
  <-> exists d, s_end_date = Some d /\ (len (up_to d data) < n_in + n_pred)%Z.
Proof.
  unfold prepare_scale_train_valid_test. split.
  - intros H.
    destruct s_end_date as [d|]; cbn [cut] in H.
    + destruct (n_in + n_pred >? len (up_to d data))%Z eqn:G.
      * exists d. split; [reflexivity|]. rewrite Z.gtb_ltb in G. now apply Z.ltb_lt.
      * exfalso.
        destruct (scale_step _ _ _) as [[[sc pr] tl]|]; cbn [bind] in H;
          [|discriminate H].
        destruct (Sk.train_test_split _ _ _ _ _ _ _)
          as [[[[[[[[a1 a2] b1] b2] c1] c2] d1] d2]|]; cbn [bind] in H;
          discriminate H.
    + exfalso.
      destruct (scale_step _ _ _) as [[[sc pr] tl]|]; cbn [bind] in H;
        [|discriminate H].
      destruct (Sk.train_test_split _ _ _ _ _ _ _)
        as [[[[[[[[a1 a2] b1] b2] c1] c2] d1] d2]|]; cbn [bind] in H;
        discriminate H.
  - intros (d & -> & H). cbn [cut].
    rewrite Z.gtb_ltb. apply Z.ltb_lt in H. now rewrite H.
Qed.

(** X2.  A configured name that is none of ["standardization"], ["minmax"],
    ["normalization"] and ["none"] leaves [scaler] unbound: unless the
    short-series answer comes first, the call raises [UnboundLocalError],
    whatever the data. *)
Theorem unknown_preprocesser_is_unbound {arith : ScalerArithmetic}
    (name : String.string) perm (data : Series) (n_in n_pred : Z) (f : float)
    s_end_date (no_shuffle : bool) :
  name <> "standardization"%string -> name <> "minmax"%string ->
  name <> "normalization"%string -> name <> "none"%string ->
  (s_end_date <> None -> (n_in + n_pred <= len (cut s_end_date data))%Z) ->
  prepare_scale_train_valid_test (Some name) perm data n_in n_pred f s_end_date
                                 no_shuffle
  = Raises UnboundLocalError.
Proof.
  intros H1 H2 H3 H4 Henough.
  apply String.eqb_neq in H1, H2, H3, H4.
  unfold prepare_scale_train_valid_test, select_scaler.
  rewrite H1, H2, H3, H4.
  assert (G : match s_end_date with
              | Some _ => (n_in + n_pred >? len (cut s_end_date data))%Z
              | None => false
              end = false).
  { destruct s_end_date as [d|]; [|reflexivity].
    rewrite Z.gtb_ltb. apply Z.ltb_ge. apply Henough. discriminate. }
  rewrite G. reflexivity.
Qed.

Lemma unknown_preprocesser_is_unbound_witness :
  ("robust" <> "standardization" /\ "robust" <> "minmax"
   /\ "robust" <> "normalization" /\ "robust" <> "none")%string
  /\ prepare_scale_train_valid_test (Some "robust"%string) py_range eight_days 3 1
                                    0.5 None false
     = Raises UnboundLocalError.
Proof.
  assert (H : ("robust" <> "standardization" /\ "robust" <> "minmax"
               /\ "robust" <> "normalization" /\ "robust" <> "none")%string)
    by (repeat split; discriminate).
  split; [exact H|].
  destruct H as (H1 & H2 & H3 & H4).
  apply (unknown_preprocesser_is_unbound "robust"%string py_range eight_days 3 1
           0.5 None false H1 H2 H3 H4).
  intros Habs. now elim Habs.
Defined.

(** X3.  An end date that leaves enough rows acts as if the series had been
    cut beforehand: the call with the end date and the call without it on the
    rows dated up to it have the same outcome, result or exception. *)
Theorem end_date_is_a_cut_beforehand {arith : ScalerArithmetic}
    P perm (data : Series) (n_in n_pred : Z) (f : float) (d : date)
    (no_shuffle : bool) :
  (n_in + n_pred <= len (up_to d data))%Z ->
  prepare_scale_train_valid_test P perm data n_in n_pred f (Some d) no_shuffle
  = prepare_scale_train_valid_test P perm (up_to d data) n_in n_pred f None
                                   no_shuffle.
Proof.
  intros H. unfold prepare_scale_train_valid_test. cbn [cut].
  rewrite Z.gtb_ltb. apply Z.ltb_ge in H. now rewrite H.
Qed.

Lemma end_date_is_a_cut_beforehand_witness :
  (3 + 1 <= len (up_to 6%Z eight_days))%Z
  /\ prepare_scale_train_valid_test (Some "minmax"%string) py_range eight_days 3 1
                                    0.5 (Some 6%Z) false
     = prepare_scale_train_valid_test (Some "minmax"%string) py_range
                                      (up_to 6%Z eight_days) 3 1 0.5 None false.
Proof.
  assert (H : (3 + 1 <= len (up_to 6%Z eight_days))%Z) by (vm_compute; discriminate).
  split; [exact H|].
  apply (end_date_is_a_cut_beforehand (Some "minmax"%string) py_range eight_days
           3 1 0.5 6%Z false H).
Defined.

Section MoreSliceFacts.
Context {A : Type}.

Lemma py_slice_inside (l : list A) (a b : Z) :
  (0 <= a <= b)%Z -> (b <= len l)%Z ->
  py_slice l (Some a) (Some b) = firstn (Z.to_nat (b - a)) (skipn (Z.to_nat a) l).
Proof.
  intros Ha Hb. unfold py_slice, slice_bound.
  destruct (a <? 0)%Z eqn:Ea; [lia|]. destruct (b <? 0)%Z eqn:Eb; [lia|].
  now rewrite !Z.min_l by lia.
Qed.

Lemma length_py_slice_inside (l : list A) (a b : Z) :
  (0 <= a <= b)%Z -> (b <= len l)%Z ->
  length (py_slice l (Some a) (Some b)) = Z.to_nat (b - a).
Proof.
  intros Ha Hb. rewrite py_slice_inside by assumption.
  rewrite length_firstn, length_skipn. unfold len in *. lia.
Qed.

Lemma firstn_plus (m k : nat) (l : list A) :
  firstn (m + k) l = firstn m l ++ firstn k (skipn m l).
Proof.
  revert l. induction m as [|m IH]; intros [|x l]; cbn [Nat.add firstn skipn app].
  - reflexivity.
  - reflexivity.
  - now rewrite firstn_nil.
  - now rewrite IH.
Qed.

(** Two slices that meet make one slice. *)
Lemma py_slice_app (l : list A) (a b c : Z) :
  (0 <= a <= b)%Z -> (b <= c)%Z -> (c <= len l)%Z ->
  py_slice l (Some a) (Some b) ++ py_slice l (Some b) (Some c)
  = py_slice l (Some a) (Some c).
Proof.
  intros Ha Hb Hc. rewrite !py_slice_inside by lia.
  replace (Z.to_nat (c - a)) with (Z.to_nat (b - a) + Z.to_nat (c - b))%nat by lia.
  rewrite firstn_plus, skipn_skipn. do 3 f_equal. lia.
Qed.

(** The last [n] rows, for a positive [n]: all of them when there are no
    more than [n]. *)
Lemma last_rows_skipn (n : Z) (l : list A) :
  (0 < n)%Z -> last_rows n l = skipn (length l - Z.to_nat n) l.
Proof.
  intros Hn. unfold last_rows, py_slice, slice_bound.
  destruct (- n <? 0)%Z eqn:E; [|lia].
  destruct (Z.le_ge_cases n (len l)) as [H|H]; unfold len in *.
  - rewrite Z.max_r by lia.
    replace (Z.to_nat (- n + Z.of_nat (length l))) with (length l - Z.to_nat n)%nat
      by lia.
    apply firstn_all2. rewrite length_skipn. lia.
  - rewrite Z.max_l by lia. rewrite Z.sub_0_r, Nat2Z.id. cbn [Z.to_nat skipn].
    replace (length l - Z.to_nat n)%nat with 0%nat by lia. apply firstn_all.
Qed.

End MoreSliceFacts.

Section MorePrepareFacts.
Context {arith : ScalerArithmetic}.

Lemma last_map_Some {B : Type} (l : list B) (x : B) :
  last (map Some (l ++ [x])) None = Some x.
Proof.
  induction l as [|y l IH]; [reflexivity|].
  cbn [app map]. cbn [map app] in IH.
  destruct (map Some (l ++ [x])) eqn:E.
  - destruct l; discriminate E.
  - cbn [last]. exact IH.
Qed.

(** What the scaling step has done when it returns: nothing without a scaler;
    with one, a fit on the whole series, and that fit applied to the series
    and to the tail. *)
Lemma scale_step_returns sel (data te : Series) sc prices tail :
  scale_step sel data te = Returns (sc, prices, tail) ->
  match sc with
  | None => sel = Some None /\ prices = values data /\ tail = values te
  | Some s' =>
      exists s, sel = Some (Some s)
        /\ s' = mkScaler (scaler_class s) (fit_log s ++ [values data])
        /\ prices = map (scaled (scaler_class s) (values data)) (values data)
        /\ tail = map (scaled (scaler_class s) (values data)) (values te)
  end.
Proof.
  unfold scale_step. destruct sel as [[s|]|]; intros H; try discriminate.
  - bind_inv H. destruct a as [s' train_data]. bind_inv H.
    apply Returns_inj in H. injection H as <- <- <-.
    unfold Sk.fit_transform in E. bind_inv E. apply Returns_inj in E.
    injection E as <- <-.
    unfold Sk.transform, Sk.fitted_sample in E0. cbn [scaler_class fit_log] in E0.
    rewrite last_map_Some in E0.
    assert (E2 : (_ <- Sk.check_array (Sk.allows_nan (scaler_class s)) (values te) ;;
                  Returns (map (scaled (scaler_class s) (values data)) (values te)))
                 = Returns a).
    { destruct (scaler_class s); exact E0. }
    bind_inv E2. apply Returns_inj in E2. subst a.
    exists s. auto.
  - apply Returns_inj in H. injection H as <- <- <-. auto.
Qed.

End MorePrepareFacts.

(** X4.  The held-out tail a run returns is the last [n_input_days] rows of
    the (cut) series, all the rows when there are no more: [dates_test] their
    dates, and [test_data] their prices, as they are when no scaler is
    returned, and otherwise mapped by the returned scaler, whose one fit was
    on the prices of the whole (cut) series. *)
Theorem held_out_tail_is_the_last_rows {arith : ScalerArithmetic}
    P perm (data : Series) (n_in n_pred : Z) (f : float) s_end_date
    (no_shuffle : bool) (out : Prepared) :
  (0 < n_in)%Z ->
  prepare_scale_train_valid_test P perm data n_in n_pred f s_end_date no_shuffle
  = Returns (Ready out) ->
  let rows := cut s_end_date data in
  let tail := skipn (length rows - Z.to_nat n_in) rows in
  dates_test out = index tail
  /\ test_data out =
     match scaler out with
     | None => values tail
     | Some s => map (scaled (scaler_class s) (values rows)) (values tail)
     end
  /\ length (test_data out) = Nat.min (Z.to_nat n_in) (length rows).
Proof.
  intros Hn H rows tail.
  destruct (prepare_ready_inv _ _ _ _ _ _ _ _ _ H) as (prices & _ & _ & Hs & Hd & _).
  fold rows in Hs, Hd. rewrite (last_rows_skipn _ _ Hn) in Hs, Hd. fold tail in Hs, Hd.
  apply scale_step_returns in Hs.
  assert (Hlen : length (values tail) = Nat.min (Z.to_nat n_in) (length rows)).
  { unfold values, tail. rewrite length_map, length_skipn. lia. }
  split; [exact Hd|].
  destruct (scaler out) as [s'|].
  - destruct Hs as (s & _ & -> & _ & ->). cbn [scaler_class].
    split; [reflexivity|]. now rewrite length_map.
  - destruct Hs as (_ & _ & ->). now split.
Qed.

Lemma held_out_tail_is_the_last_rows_witness :
  exists out,
    ((0 < 3)%Z
     /\ prepare_scale_train_valid_test (Some "minmax"%string) py_range eight_days
                                       3 1 0.5 None false
        = Returns (Ready out))
    /\ dates_test out = index (skipn (length eight_days - Z.to_nat 3) eight_days)
    /\ test_data out =
       match scaler out with
       | None => values (skipn (length eight_days - Z.to_nat 3) eight_days)
       | Some s =>
           map (scaled (scaler_class s) (values eight_days))
               (values (skipn (length eight_days - Z.to_nat 3) eight_days))
       end
    /\ length (test_data out) = Nat.min (Z.to_nat 3) (length eight_days).
Proof.
  eexists.
  assert (H : prepare_scale_train_valid_test (Some "minmax"%string) py_range
                eight_days 3 1 0.5 None false = Returns (Ready _))
    by (vm_compute; reflexivity).
  split; [split; [reflexivity | exact H]|].
  exact (held_out_tail_is_the_last_rows (Some "minmax"%string) py_range eight_days
           3 1 0.5 None false _ eq_refl H).
Defined.

Section ShapeFacts.
Context {arith : ScalerArithmetic}.

(** Every pair the loop makes is a run of consecutive rows that stops before
    the last row of the series. *)
Lemma make_windows_adjacent (prices : list float) (dates : list date)
    (n_in n_pred : Z) (j : Z) :
  (0 <= n_in)%Z -> (0 <= n_pred)%Z -> len prices = len dates ->
  let w := make_windows prices dates n_in n_pred in
  (0 <= j < Z.of_nat (count w))%Z ->
  adjacent_run dates n_in n_pred w (Z.to_nat j).
Proof.
  intros Hin Hpred Hlen w Hj.
  destruct (make_windows_all_counts prices dates n_in n_pred) as (_ & _ & _ & Hc).
  fold w in Hc.
  assert (Hn : (0 <= j < len prices - n_in - n_pred)%Z) by lia.
  exists j. split; [lia|]. split; [lia|].
  unfold w. rewrite make_windows_maps.
  cbn [input_prices input_dates next_n_day_prices next_n_day_dates].
  rewrite !nth_slices by assumption.
  rewrite py_slice_app by lia.
  rewrite !length_py_slice_inside by lia.
  repeat split; f_equal; lia.
Qed.

Lemma pick_adjacent (prices : list float) (dates : list date) (n_in n_pred : Z)
    idx (k : nat) :
  (0 <= n_in)%Z -> (0 <= n_pred)%Z -> len prices = len dates ->
  let w := make_windows prices dates n_in n_pred in
  Forall (fun i => 0 <= i < Z.of_nat (count w))%Z idx ->
  (k < length idx)%nat ->
  adjacent_run dates n_in n_pred (pick w idx) k.
Proof.
  intros Hin Hpred Hlen w Hidx Hk.
  assert (Hj : (0 <= nth k idx 0 < Z.of_nat (count w))%Z).
  { rewrite Forall_forall in Hidx. apply Hidx. now apply nth_In. }
  destruct (make_windows_adjacent prices dates n_in n_pred _ Hin Hpred Hlen Hj)
    as (i & Hi0 & Hi1 & H1 & H2 & H3 & H4 & H5).
  fold w in H1, H2, H3, H4, H5.
  exists i. split; [exact Hi0|]. split; [exact Hi1|].
  unfold pick. cbn [input_prices input_dates next_n_day_prices next_n_day_dates].
  rewrite !nth_select by assumption. auto.
Qed.

End ShapeFacts.

(** X5.  Whatever the scaling, every training and validation pair a run
    returns has one shape and no gap: its input dates followed by its target
    dates are [n_input_days + n_predict_days] consecutive dates of the (cut)
    series, the input arrays hold [n_input_days] items and the target arrays
    [n_predict_days], and the run stops before the last date of the series,
    which is in no pair. *)
Theorem window_pairs_are_adjacent_runs {arith : ScalerArithmetic}
    P perm (data : Series) (n_in n_pred : Z) (f : float) s_end_date
    (no_shuffle : bool) (out : Prepared) :
  (0 <= n_in)%Z -> (0 <= n_pred)%Z ->
  prepare_scale_train_valid_test P perm data n_in n_pred f s_end_date no_shuffle
  = Returns (Ready out) ->
  (forall k, (k < count (train_part out))%nat ->
     adjacent_run (index (cut s_end_date data)) n_in n_pred (train_part out) k)
  /\ (forall k, (k < count (valid_part out))%nat ->
        adjacent_run (index (cut s_end_date data)) n_in n_pred (valid_part out) k).
Proof.
  intros Hin Hpred H.
  destruct (prepare_ready_inv _ _ _ _ _ _ _ _ _ H)
    as (prices & train & test & Hscale & _ & Htr & Hte & Ht & Hv).
  destruct (scale_step_lengths _ _ _ _ _ _ Hscale) as [Lp _].
  assert (Hlen : len prices = len (index (cut s_end_date data)))
    by (unfold len, index; now rewrite length_map, Lp).
  rewrite Ht, Hv.
  split; intros k Hk; rewrite count_pick in Hk; now apply pick_adjacent.
Qed.

Lemma window_pairs_are_adjacent_runs_witness :
  exists out,
    ((0 <= 3)%Z /\ (0 <= 1)%Z
     /\ prepare_scale_train_valid_test (Some "standardization"%string) py_range
                                       eight_days 3 1 0.5 None false
        = Returns (Ready out))
    /\ (forall k, (k < count (train_part out))%nat ->
          adjacent_run (index (cut None eight_days)) 3 1 (train_part out) k)
    /\ (forall k, (k < count (valid_part out))%nat ->
          adjacent_run (index (cut None eight_days)) 3 1 (valid_part out) k).
Proof.
  eexists.
  assert (H : prepare_scale_train_valid_test (Some "standardization"%string)
                py_range eight_days 3 1 0.5 None false = Returns (Ready _))
    by (vm_compute; reflexivity).
  assert (H3 : (0 <= 3)%Z) by discriminate.
  assert (H1 : (0 <= 1)%Z) by discriminate.
  split; [split; [exact H3 | split; [exact H1 | exact H]]|].
  exact (window_pairs_are_adjacent_runs (Some "standardization"%string) py_range
           eight_days 3 1 0.5 None false _ H3 H1 H).
Defined.

(** X6.  With [no_shuffle = True] the split is the shuffled one: for a
    fraction strictly between 0 and 1 and [k], the ceiling of its binary64
    product with the number of pairs, with [0 < k] smaller than that number,
    the validation arrays are the window pairs at the first [k] positions of
    the drawn permutation and the training arrays those at the positions
    after them, in the order of the draw. *)
Theorem shuffled_split_follows_the_draw {arith : ScalerArithmetic}
    P perm data n_in n_pred (f : float) s_end_date sc prices tail (k : Z) :
  (0 < n_in)%Z -> (0 < n_pred)%Z ->
  (0 <? f)%float = true -> (f <? 1)%float = true ->
  scale_step (select_scaler P) (cut s_end_date data)
             (last_rows n_in (cut s_end_date data)) = Returns (sc, prices, tail) ->
  let w := make_windows prices (index (cut s_end_date data)) n_in n_pred in
  Permutation (perm (Z.of_nat (count w))) (py_range (Z.of_nat (count w))) ->
  Np.ceil (f * Np.of_count (count w))%float = Returns k ->
  (0 < k < Z.of_nat (count w))%Z ->
  exists out,
    prepare_scale_train_valid_test P perm data n_in n_pred f s_end_date true
    = Returns (Ready out)
    /\ valid_part out = pick w (firstn (Z.to_nat k) (perm (Z.of_nat (count w))))
    /\ train_part out = pick w (skipn (Z.to_nat k) (perm (Z.of_nat (count w)))).
Proof.
  intros _ _ H0 H1 Hscale w Hperm Hk [Hpos Hlt].
  assert (Hs := split_indices_shuffled (count w) f k perm H0 H1 Hk (conj Hpos Hlt)).
  rewrite (Permutation_length Hperm), length_py_range, Nat2Z.id in Hs.
  specialize (Hs eq_refl).
  assert (Hin : Forall (fun i => 0 <= i < Z.of_nat (count w))%Z
                       (perm (Z.of_nat (count w)))).
  { apply Forall_forall. intros i Hi.
    apply (Permutation_in _ Hperm), py_range2_bounds in Hi. lia. }
  rewrite <- (firstn_skipn (Z.to_nat k) (perm (Z.of_nat (count w)))) in Hin.
  apply Forall_app in Hin. destruct Hin as [Hfirst Hrest].
  assert (Hc : (1 <= count w)%nat) by lia.
  destruct (prepare_returns_picks P perm data n_in n_pred f s_end_date true
              sc prices tail _ _ Hscale Hc Hs Hrest Hfirst)
    as (out & Hout & Ht & Hv & _).
  exists out. fold w in Ht, Hv. auto.
Qed.

Lemma shuffled_split_follows_the_draw_witness :
  let w := make_windows (values eight_days) (index eight_days) 3 1 in
  let perm := fun n => rev (py_range n) in
  ((0 < 3)%Z /\ (0 < 1)%Z
   /\ (0 <? 0.5)%float = true /\ (0.5 <? 1)%float = true
   /\ Permutation (perm (Z.of_nat (count w))) (py_range (Z.of_nat (count w)))
   /\ Np.ceil (0.5 * Np.of_count (count w))%float = Returns 2%Z
   /\ (0 < 2 < Z.of_nat (count w))%Z)
  /\ exists out,
       prepare_scale_train_valid_test (Some "none"%string) perm eight_days 3 1 0.5
                                      None true
       = Returns (Ready out)
       /\ valid_part out = pick w (firstn (Z.to_nat 2) (perm (Z.of_nat (count w))))
       /\ train_part out = pick w (skipn (Z.to_nat 2) (perm (Z.of_nat (count w)))).
Proof.
  intros w perm.
  assert (Hp : Permutation (perm (Z.of_nat (count w))) (py_range (Z.of_nat (count w))))
    by (symmetry; apply Permutation_rev).
  split.
  - do 4 (split; [reflexivity|]). split; [exact Hp|].
    split; [vm_compute; reflexivity|]. split; vm_compute; reflexivity.
  - apply (shuffled_split_follows_the_draw (Some "none"%string) perm eight_days 3 1
             0.5 None None (values eight_days) (values (last_rows 3 eight_days)) 2).
    + reflexivity.
    + reflexivity.
    + reflexivity.
    + reflexivity.
    + reflexivity.
    + exact Hp.
    + vm_compute; reflexivity.
    + split; vm_compute; reflexivity.
Defined.

(* ================================================================== *)
(** * Scaling against windowing and splitting *)
(* ================================================================== *)

(** An outcome, its value mapped. *)
Section MapFacts.

Lemma item_map {A B : Type} (g : A -> B) (l : list A) (i : Z) :
  item (map g l) i = x <- item l i ;; Returns (g x).
Proof.
  unfold item, len. rewrite length_map.
  destruct (position _ i <? 0)%Z; [reflexivity|].
  rewrite nth_error_map. now destruct (nth_error l _).
Qed.

Lemma safe_indexing_map {A B : Type} (g : A -> B) (l : list A) (idx : list Z) :
  Sk.safe_indexing (map g l) idx = r <- Sk.safe_indexing l idx ;; Returns (map g r).
Proof.
  unfold Sk.safe_indexing. induction idx as [|i idx IH]; [reflexivity|].
  cbn [mapM]. rewrite item_map, IH.
  destruct (item l i) as [x|e]; cbn [bind]; [|reflexivity].
  now destruct (mapM (item l) idx).
Qed.

(** The split of mapped arrays is the split of the arrays, mapped. *)
Lemma train_test_split_map {A A' B B' C D : Type} (ga : A -> A') (gb : B -> B')
    (a : list A) (b : list B) (c : list C) (d : list D) f shuffle perm :
  Sk.train_test_split (map ga a) (map gb b) c d f shuffle perm
  = '(a1, a2, b1, b2, c1, c2, d1, d2) <- Sk.train_test_split a b c d f shuffle perm ;;
    Returns (map ga a1, map ga a2, map gb b1, map gb b2, c1, c2, d1, d2).
Proof.
  unfold Sk.train_test_split, len. rewrite !length_map.
  destruct (negb _); [reflexivity|].
  destruct (Sk.split_indices _ f shuffle perm) as [[train test]|e]; cbn [bind];
    [|reflexivity].
  rewrite !safe_indexing_map.
  destruct (Sk.safe_indexing a train); cbn [bind]; [|reflexivity].
  destruct (Sk.safe_indexing a test); cbn [bind]; [|reflexivity].
  destruct (Sk.safe_indexing b train); cbn [bind]; [|reflexivity].
  destruct (Sk.safe_indexing b test); cbn [bind]; [|reflexivity].
  destruct (Sk.safe_indexing c train); cbn [bind]; [|reflexivity].
  destruct (Sk.safe_indexing c test); cbn [bind]; [|reflexivity].
  destruct (Sk.safe_indexing d train); cbn [bind]; [|reflexivity].
  destruct (Sk.safe_indexing d test); cbn [bind]; reflexivity.
Qed.

Lemma slices_map {A B : Type} (g : A -> B) (arr : list A) from upto idxs :
  slices (map g arr) from upto idxs = map (map g) (slices arr from upto idxs).
Proof.
  unfold slices. rewrite map_map. apply map_ext. intros i. apply py_slice_map.
Qed.

(** The windows of mapped prices are the windows of the prices, mapped. *)
Lemma make_windows_map (g : float -> float) prices dates n_in n_pred :
  make_windows (map g prices) dates n_in n_pred
  = let w := make_windows prices dates n_in n_pred in
    mkWindows (input_dates w) (map (map g) (input_prices w))
              (map (map g) (next_n_day_prices w)) (next_n_day_dates w).
Proof.
  rewrite !make_windows_maps. cbv zeta.
  cbn [input_dates input_prices next_n_day_prices next_n_day_dates].
  unfold len. rewrite length_map. now rewrite !slices_map.
Qed.

End MapFacts.

(** X7.  Scaling changes the values and nothing else.  When the same call
    returns both without scaling and with a scaler of class [c], the second
    result has the dates of the first, pair by pair and in the tail, and its
    prices are those of the first through one map, the scaler fit on the
    prices of the whole (cut) series: the same rows are in the same pairs and
    the same pairs in the same part. *)
Theorem scaling_changes_values_only {arith : ScalerArithmetic}
    (name : String.string) (c : ScalerClass) perm (data : Series) (n_in n_pred : Z)
    (f : float) s_end_date (no_shuffle : bool) (raw out : Prepared) :
  select_scaler (Some name) = Some (Some (Sk.new_scaler c)) ->
  prepare_scale_train_valid_test (Some "none"%string) perm data n_in n_pred f
                                 s_end_date no_shuffle
  = Returns (Ready raw) ->
  prepare_scale_train_valid_test (Some name) perm data n_in n_pred f
                                 s_end_date no_shuffle
  = Returns (Ready out) ->
  let g := scaled c (values (cut s_end_date data)) in
  X_train out = map (map g) (X_train raw)
  /\ X_valid out = map (map g) (X_valid raw)
  /\ y_train out = map (map g) (y_train raw)
  /\ y_valid out = map (map g) (y_valid raw)
  /\ test_data out = map g (test_data raw)
  /\ X_dates_train out = X_dates_train raw /\ X_dates_valid out = X_dates_valid raw
  /\ y_dates_train out = y_dates_train raw /\ y_dates_valid out = y_dates_valid raw
  /\ dates_test out = dates_test raw.
Proof.
  intros Sel Hraw Hout g.
  unfold prepare_scale_train_valid_test in Hraw, Hout.
  rewrite Sel in Hout.
  change (select_scaler (Some "none"%string)) with (@Some (option Scaler) None) in Hraw.
  destruct (match s_end_date with Some _ => _ | None => false end); [discriminate|].
  cbn [scale_step bind] in Hraw.
  bind_inv Hout. destruct a as [[sc prices] tail].
  apply scale_step_returns in E.
  destruct sc as [s'|]; [|destruct E as [E _]; discriminate E].
  destruct E as (s & Es & -> & -> & ->).
  injection Es as <-. cbn [Sk.new_scaler scaler_class] in Hout. fold g in Hout.
  rewrite make_windows_map in Hout. cbv zeta in Hout.
  cbn [input_dates input_prices next_n_day_prices next_n_day_dates] in Hout.
  rewrite train_test_split_map in Hout.
  destruct (Sk.train_test_split _ _ _ _ f no_shuffle perm)
    as [[[[[[[[a1 a2] b1] b2] c1] c2] d1] d2]|]; cbn [bind] in Hraw, Hout;
    [|discriminate Hraw].
  apply Returns_inj in Hraw, Hout.
  injection Hraw as <-. injection Hout as <-.
  cbn. repeat split; reflexivity.
Qed.

Lemma scaling_changes_values_only_witness :
  exists raw out,
    (select_scaler (Some "minmax"%string) = Some (Some (Sk.new_scaler MinMaxScaler))
     /\ prepare_scale_train_valid_test (Some "none"%string) py_range eight_days
                                       3 1 0.5 None false
        = Returns (Ready raw)
     /\ prepare_scale_train_valid_test (Some "minmax"%string) py_range eight_days
                                       3 1 0.5 None false
        = Returns (Ready out))
    /\ X_train out = map (map (scaled MinMaxScaler (values eight_days))) (X_train raw)
    /\ test_data out = map (scaled MinMaxScaler (values eight_days)) (test_data raw).
Proof.
  eexists. eexists.
  assert (Hraw : prepare_scale_train_valid_test (Some "none"%string) py_range
                   eight_days 3 1 0.5 None false = Returns (Ready _))
    by (vm_compute; reflexivity).
  assert (Hout : prepare_scale_train_valid_test (Some "minmax"%string) py_range
                   eight_days 3 1 0.5 None false = Returns (Ready _))
    by (vm_compute; reflexivity).
  split; [split; [reflexivity | split; [exact Hraw | exact Hout]]|].
  pose proof (scaling_changes_values_only "minmax"%string MinMaxScaler py_range
                eight_days 3 1 0.5 None false _ _ eq_refl Hraw Hout) as H.
  cbv zeta in H. split; [apply H | apply H].
Defined.

(* ================================================================== *)
(** * [forecast] *)
(* ================================================================== *)

Lemma combine_fst_snd {A B : Type} (l : list A) (l' : list B) :
  length l' = length l ->
  map fst (combine l l') = l /\ map snd (combine l l') = l'.
Proof.
  revert l'. induction l as [|x l IH]; intros [|y l'] H; try discriminate H.
  - split; reflexivity.
  - cbn. injection H as H. destruct (IH _ H) as [-> ->]. split; reflexivity.
Qed.

(** X8.  A forecast that is returned is dated by [future_dates], one row per
    date and in their order, whatever the model predicts; without a scaler
    its prices are the very output of the model, and with one that output
    through the inverse map of the scaler's last fit. *)
Theorem forecast_is_dated_by_future_dates {arith : ScalerArithmetic}
    (input_values : list float) (future_dates : list date)
    (model : list float -> Outcome (list float)) (sc : option Scaler)
    (df_future : list (date * float)) :
  forecast input_values future_dates model sc = Returns df_future ->
  index df_future = future_dates
  /\ exists prediction,
       model input_values = Returns prediction
       /\ match sc with
          | None => values df_future = prediction
          | Some s =>
              exists F, Sk.fitted_sample s = Returns F
                /\ values df_future = map (unscaled (scaler_class s) F) prediction
          end.
Proof.
  unfold forecast. intros H. bind_inv H.
  destruct (Nat.eqb (length a) (length future_dates)) eqn:L; [|discriminate H].
  apply Returns_inj in H. subst df_future. apply Nat.eqb_eq in L.
  destruct (combine_fst_snd future_dates a L) as [Hf Hs].
  unfold index, values. split; [exact Hf|]. rewrite Hs.
  destruct sc as [s|].
  - assert (E' : (prediction <- model input_values ;;
                  Sk.inverse_transform s prediction) = Returns a
                 /\ scaler_class s <> Normalizer).
    { destruct (scaler_class s); try discriminate E; split; try exact E; discriminate. }
    destruct E' as [E' Hc]. bind_inv E'. exists a0. split; [reflexivity|].
    unfold Sk.inverse_transform in E'.
    assert (E2 : (F <- Sk.fitted_sample s ;; _ <- Sk.check_array true a0 ;;
                  Returns (map (unscaled (scaler_class s) F) a0)) = Returns a).
    { destruct (scaler_class s); try exact E'. now elim Hc. }
    bind_inv E2. bind_inv E2. apply Returns_inj in E2. subst a.
    exists a1. split; reflexivity.
  - exists a. split; [exact E | reflexivity].
Qed.

Lemma forecast_is_dated_by_future_dates_witness :
  exists df_future,
    forecast [6; 7; 8]%float [9; 10]%Z (fun _ => Returns [9; 10]%float) None
    = Returns df_future
    /\ index df_future = [9; 10]%Z
    /\ exists prediction,
         (fun _ : list float => Returns [9; 10]%float) [6; 7; 8]%float
         = Returns prediction
         /\ values df_future = prediction.
Proof.
  eexists.
  assert (H : forecast [6; 7; 8]%float [9; 10]%Z (fun _ => Returns [9; 10]%float)
                None = Returns _) by (vm_compute; reflexivity).
  split; [exact H|].
  exact (forecast_is_dated_by_future_dates [6; 7; 8]%float [9; 10]%Z
           (fun _ => Returns [9; 10]%float) None _ H).
Defined.

(** X9.  With ["normalization"] configured no forecast can be made: the
    scaler a run returns is a [Normalizer], which has no [inverse_transform],
    so [forecast] with it raises [AttributeError] for every input, every list
    of dates and every model, before the model is called. *)
Theorem normalization_cannot_forecast {arith : ScalerArithmetic}
    perm (data : Series) (n_in n_pred : Z) (f : float) s_end_date
    (no_shuffle : bool) (out : Prepared)
    (input_values : list float) (future_dates : list date)
    (model : list float -> Outcome (list float)) :
  prepare_scale_train_valid_test (Some "normalization"%string) perm data n_in
                                 n_pred f s_end_date no_shuffle
  = Returns (Ready out) ->
  forecast input_values future_dates model (scaler out) = Raises AttributeError.
Proof.
  intros H.
  destruct (prepare_ready_inv _ _ _ _ _ _ _ _ _ H) as (prices & _ & _ & Hs & _).
  apply scale_step_returns in Hs.
  destruct (scaler out) as [s'|]; [|destruct Hs as [Hs _]; discriminate Hs].
  destruct Hs as (s & Es & -> & _).
  injection Es as <-. reflexivity.
Qed.

Lemma normalization_cannot_forecast_witness :
  exists out,
    prepare_scale_train_valid_test (Some "normalization"%string) py_range
                                   eight_days 3 1 0.5 None false
    = Returns (Ready out)
    /\ forecast (test_data out) [9; 10]%Z (fun _ => Returns [9; 10]%float)
                (scaler out)
       = Raises AttributeError.
Proof.
  eexists.
  assert (H : prepare_scale_train_valid_test (Some "normalization"%string) py_range
                eight_days 3 1 0.5 None false = Returns (Ready _))
    by (vm_compute; reflexivity).
  split; [exact H|].
  exact (normalization_cannot_forecast py_range eight_days 3 1 0.5 None false _ _
           [9; 10]%Z (fun _ => Returns [9; 10]%float) H).
Defined.

(* ================================================================== *)
(** * The environment variables *)
(* ================================================================== *)

Lemma restore_at (key : String.string) (value : option String.string)
    (env : Environ) (k : String.string) :
  restore key value env k = if String.eqb k key then value else env k.
Proof.
  unfold restore, setenv, delenv. destruct value as [v|].
  - reflexivity.
  - destruct (env key) eqn:E; [reflexivity|].
    destruct (String.eqb k key) eqn:K; [|reflexivity].
    apply String.eqb_eq in K. now subst k.
Qed.

(** X10.  [restore_env] undoes what [parse_args] did to the environment:
    after the import of the module, a successful parse with any options, and
    [restore_env], every variable has the value it had once the module was
    imported, a variable that was not set being unset again. *)
Theorem restore_env_undoes_parse_args
    (join : list String.string -> String.string) (env0 : Environ)
    (b_xla_cpu b_xla_gpu : bool) (s_force_gpu_allow_growth : String.string)
    (k : String.string) :
  let '(env, o) := import_module env0 in
  restore_env o (parse_args_environment join o b_xla_cpu b_xla_gpu
                                        s_force_gpu_allow_growth env) k
  = env k.
Proof.
  unfold import_module, restore_env. cbv zeta. rewrite !restore_at.
  cbn [ORIGINAL_TF_XLA_FLAGS ORIGINAL_TF_FORCE_GPU_ALLOW_GROWTH].
  destruct (String.eqb k "TF_FORCE_GPU_ALLOW_GROWTH") eqn:K1.
  { apply String.eqb_eq in K1. now subst k. }
  destruct (String.eqb k "TF_XLA_FLAGS") eqn:K2.
  { apply String.eqb_eq in K2. now subst k. }
  unfold parse_args_environment.
  destruct (String.eqb s_force_gpu_allow_growth "true");
    [|destruct (String.eqb s_force_gpu_allow_growth "false")];
    unfold setenv at 1; rewrite ?K1, ?K2; try reflexivity;
    unfold setenv at 1; rewrite ?K1, ?K2; reflexivity.
Qed.

(* ================================================================== *)
(** * The key figures *)
(* ================================================================== *)

Section SignFacts.
Open Scope float_scope.

Lemma unsigned_not_negative (x : spec_float) :
  SFunsigned x = true -> SFnot_negative x = true.
Proof. destruct x as [s|s| |s m e]; try reflexivity; now destruct s. Qed.

Lemma not_negative_ltb (x : float) :
  SFnot_negative (Prim2SF x) = true -> (x <? 0) = false.
Proof.
  rewrite ltb_spec. change (Prim2SF 0) with (S754_zero false). unfold SFltb.
  destruct (Prim2SF x) as [s|s| |s m e]; try reflexivity; now destruct s.
Qed.

Lemma abs_unsigned (x : float) : SFunsigned (Prim2SF (abs x)) = true.
Proof. rewrite abs_spec. now destruct (Prim2SF x). Qed.

Lemma square_unsigned (x : float) : SFunsigned (Prim2SF (x * x)) = true.
Proof.
  rewrite mul_spec.
  destruct (Prim2SF x) as [s|s| |s m e]; try reflexivity; try (now destruct s).
  unfold SF64mul, SFmul. replace (xorb s s) with false by now destruct s.
  apply binary_round_aux_unsigned.
Qed.

Lemma SFadd_not_negative (x y : spec_float) :
  SFnot_negative x = true -> SFunsigned y = true ->
  SFunsigned (SF64add x y) = true.
Proof.
  destruct x as [s|s| |s m e], y as [s'|s'| |s' m' e']; intros Hx Hy;
    try reflexivity; try (destruct s, s'; try discriminate; reflexivity).
  destruct s, s'; try discriminate.
  unfold SF64add, SFadd, cond_Zopp, binary_normalize, binary_round.
  match goal with
  | |- context [(Z.pos ?a + Z.pos ?b)%Z] =>
      change (Z.pos a + Z.pos b)%Z with (Z.pos (a + b))
  end.
  cbv iota.
  destruct (shl_align _ _ _) as [mz ez]. apply binary_round_aux_unsigned.
Qed.

Lemma fold_add_unsigned (l : list float) (acc : float) :
  SFunsigned (Prim2SF acc) = true ->
  Forall (fun x => SFunsigned (Prim2SF x) = true) l ->
  SFunsigned (Prim2SF (fold_left PrimFloat.add l acc)) = true.
Proof.
  intros Hacc Hl. revert acc Hacc.
  induction Hl as [|x l Hx Hl IH]; intros acc Hacc; cbn [fold_left].
  - exact Hacc.
  - apply IH. rewrite add_spec.
    apply SFadd_not_negative; [now apply unsigned_not_negative | exact Hx].
Qed.

(** A sum of numbers that are not negative is not negative. *)
Lemma sum_not_negative (l : list float) :
  Forall (fun x => SFunsigned (Prim2SF x) = true) l ->
  SFnot_negative (Prim2SF (Np.sum l)) = true.
Proof.
  unfold Np.sum. intros Hl. destruct Hl as [|x l Hx Hl].
  - reflexivity.
  - cbn [fold_left]. apply unsigned_not_negative, fold_add_unsigned; [|exact Hl].
    rewrite add_spec. apply SFadd_not_negative; [reflexivity | exact Hx].
Qed.

Lemma SFdiv_not_negative (x y : spec_float) :
  SFnot_negative x = true -> SFunsigned y = true ->
  SFnot_negative (SF64div x y) = true.
Proof.
  destruct x as [s|s| |s m e], y as [s'|s'| |s' m' e']; intros Hx Hy;
    try reflexivity; try (destruct s, s'; try discriminate; reflexivity).
  destruct s, s'; try discriminate.
  unfold SF64div, SFdiv.
  destruct (SFdiv_core_binary _ _ _ _ _ _) as [[mz ez] lz].
  apply unsigned_not_negative, binary_round_aux_unsigned.
Qed.

Lemma mean_not_negative (l : list float) :
  Forall (fun x => SFunsigned (Prim2SF x) = true) l ->
  SFnot_negative (Prim2SF (Np.mean l)) = true.
Proof.
  intros Hl. unfold Np.mean. rewrite div_spec.
  apply SFdiv_not_negative; [now apply sum_not_negative | apply of_count_unsigned].
Qed.

Lemma sqrt_not_negative (x : float) :
  SFnot_negative (Prim2SF x) = true ->
  SFnot_negative (Prim2SF (PrimFloat.sqrt x)) = true.
Proof.
  rewrite sqrt_spec.
  destruct (Prim2SF x) as [s|s| |s m e]; intros H; try reflexivity;
    try (destruct s; try discriminate; reflexivity).
  destruct s; [discriminate|].
  unfold SF64sqrt, SFsqrt.
  destruct (SFsqrt_core_binary _ _ _ _) as [[mz ez] lz].
  apply unsigned_not_negative, binary_round_aux_unsigned.
Qed.

Lemma times_100_not_negative (x : float) :
  SFnot_negative (Prim2SF x) = true -> SFnot_negative (Prim2SF (x * 100)) = true.
Proof.
  rewrite mul_spec.
  change (Prim2SF 100) with (S754_finite false 7036874417766400 (-46)).
  destruct (Prim2SF x) as [s|s| |s m e]; intros H; try reflexivity;
    try (destruct s; try discriminate; reflexivity).
  destruct s; [discriminate|].
  apply unsigned_not_negative. unfold SF64mul, SFmul. apply binary_round_aux_unsigned.
Qed.

Lemma Forall_map_abs (l : list float) :
  Forall (fun x => SFunsigned (Prim2SF x) = true) (Np.abs l).
Proof. unfold Np.abs. apply Forall_map, Forall_forall. intros x _. apply abs_unsigned. Qed.

Lemma Forall_map_square (l : list float) :
  Forall (fun x => SFunsigned (Prim2SF x) = true) (Np.square l).
Proof.
  unfold Np.square. apply Forall_map, Forall_forall. intros x _. apply square_unsigned.
Qed.

End SignFacts.

(** X11.  None of the four error figures is ever negative: whenever the key
    figures are computed, MAPE, MAE, MSE and RMSE are each zero, positive,
    plus infinity or [nan], never below zero. *)
Theorem error_figures_are_never_negative (real pred : list float) (card : Scorecard) :
  print_prediction_kpis real pred = Returns card ->
  (MAPE card <? 0)%float = false /\ (MAE card <? 0)%float = false
  /\ (MSE card <? 0)%float = false /\ (RMSE card <? 0)%float = false.
Proof.
  unfold print_prediction_kpis. intros H.
  bind_inv H. bind_inv H. bind_inv H. bind_inv H. bind_inv H.
  apply Returns_inj in H. subst card. cbn [MAPE MAE MSE RMSE].
  repeat split; apply not_negative_ltb.
  - unfold mean_absolute_percentage_error in E. bind_inv E. bind_inv E.
    apply Returns_inj in E. subst a.
    apply times_100_not_negative, mean_not_negative, Forall_map_abs.
  - unfold Sk.mean_absolute_error in E1. bind_inv E1. apply Returns_inj in E1.
    subst a1. apply mean_not_negative, Forall_map_abs.
  - unfold Sk.mean_squared_error in E2. bind_inv E2. apply Returns_inj in E2.
    subst a2. apply mean_not_negative, Forall_map_square.
  - unfold Sk.mean_squared_error in E3. bind_inv E3. apply Returns_inj in E3.
    subst a3. apply sqrt_not_negative, mean_not_negative, Forall_map_square.
Qed.

Lemma error_figures_are_never_negative_witness :
  exists card,
    print_prediction_kpis [10; 20]%float [12; 18]%float = Returns card
    /\ (MAPE card <? 0)%float = false /\ (MAE card <? 0)%float = false
    /\ (MSE card <? 0)%float = false /\ (RMSE card <? 0)%float = false.
Proof.
  eexists.
  assert (H : print_prediction_kpis [10; 20]%float [12; 18]%float = Returns _)
    by (vm_compute; reflexivity).
  split; [exact H|].
  exact (error_figures_are_never_negative [10; 20]%float [12; 18]%float _ H).
Defined.

Section ReturnFacts.

Lemma existsb_false_Forall {A : Type} (p : A -> bool) (l : list A) :
  existsb p l = false <-> Forall (fun x => p x = false) l.
Proof.
  induction l as [|x l IH]; cbn [existsb].
  - split; [constructor | reflexivity].
  - rewrite orb_false_iff, IH. split.
    + intros [H1 H2]. now constructor.
    + intros H. inversion H. now split.
Qed.

(** The strict check of an array passes on a non-empty array of finite
    numbers, and on nothing else. *)
Lemma check_array_strict (X : list float) :
  Sk.check_array false X = Returns tt
  <-> X <> [] /\ Forall (fun x => Np.isfinite x = true) X.
Proof.
  unfold Sk.check_array. destruct X as [|x X].
  - split; [discriminate | intros [H _]; now elim H].
  - set (l := x :: X). cbn [negb andb].
    assert (Hfin : Forall (fun x => Np.isfinite x = true) l
                   <-> existsb Np.isinf l = false /\ existsb Np.isnan l = false).
    { rewrite !existsb_false_Forall, !Forall_forall. unfold Np.isfinite, is_finite,
        Np.isinf, Np.isnan. split.
      - intros H. split; intros y Hy; specialize (H y Hy);
          apply negb_true_iff, orb_false_iff in H; tauto.
      - intros [H1 H2] y Hy. apply negb_true_iff, orb_false_iff. auto. }
    split.
    + intros H. split; [discriminate|]. apply Hfin.
      destruct (existsb Np.isinf l); [discriminate|].
      destruct (existsb Np.isnan l); [discriminate|]. auto.
    + intros [_ H]. apply Hfin in H. destruct H as [-> ->]. reflexivity.
Qed.

Lemma check_array_returns_tt allow (X : list float) (u : unit) :
  Sk.check_array allow X = Returns u -> Sk.check_array allow X = Returns tt.
Proof. destruct u. auto. Qed.

End ReturnFacts.

(** X12.  The key figures are computed exactly when the two vectors have one
    length, are not empty, and hold finite numbers only: in every other case
    the call raises, and in this one it raises nothing. *)
Theorem kpis_are_computed_iff (real pred : list float) :
  (exists card, print_prediction_kpis real pred = Returns card)
  <-> length real = length pred /\ real <> []
      /\ Forall (fun x => Np.isfinite x = true) real
      /\ Forall (fun x => Np.isfinite x = true) pred.
Proof.
  split.
  - intros [card H]. unfold print_prediction_kpis in H.
    bind_inv H. bind_inv H. clear H.
    unfold Sk.r2_score in E0. bind_inv E0. clear E0.
    unfold Sk.check_reg_targets in E1.
    destruct (Nat.eqb (length real) (length pred)) eqn:L; [|discriminate E1].
    cbn [negb] in E1. bind_inv E1.
    apply check_array_returns_tt, check_array_strict in E0, E1.
    apply Nat.eqb_eq in L. tauto.
  - intros (L & Hne & Hr & Hp).
    assert (Hc : Sk.check_reg_targets real pred = Returns tt).
    { unfold Sk.check_reg_targets. rewrite L, Nat.eqb_refl. cbn [negb].
      rewrite (proj2 (check_array_strict real) (conj Hne Hr)). cbn [bind].
      apply check_array_strict. split; [|exact Hp].
      intros ->. destruct real; [now elim Hne | discriminate L]. }
    unfold print_prediction_kpis.
    rewrite (ratio_of_equal_lengths _ _ L). cbn [bind].
    unfold Sk.r2_score, Sk.mean_absolute_error, Sk.mean_squared_error.
    rewrite Hc. cbn [bind].
    destruct (length pred <? 2)%nat; cbn [bind]; eexists; reflexivity.
Qed.

(** X13.  On its own the MAPE computation raises only when the two vectors
    have different lengths and neither has length 1: a vector of one item is
    paired with every item of the other, as numpy broadcasts, and the
    exception is the broadcasting [ValueError]. *)
Theorem mape_raises_iff (y_true y_pred : list float) :
  mean_absolute_percentage_error y_true y_pred = Raises (ValueError Broadcast)
  <-> length y_true <> length y_pred
      /\ length y_true <> 1%nat /\ length y_pred <> 1%nat.
Proof.
  unfold mean_absolute_percentage_error, Np.binop.
  destruct (Nat.eqb (length y_true) (length y_pred)) eqn:L.
  - apply Nat.eqb_eq in L. cbn [bind].
    rewrite length_map, length_combine, L, Nat.min_id, <- L, Nat.eqb_refl.
    cbn [bind]. split; [discriminate | intros [H _]; now elim H].
  - apply Nat.eqb_neq in L.
    destruct y_pred as [|q [|q' y_pred]].
    + destruct y_true as [|t [|t' y_true]]; cbn in *.
      * now elim L.
      * split; [discriminate | intros (_ & H & _); now elim H].
      * split; [intros _; repeat split; discriminate | reflexivity].
    + destruct y_true as [|t [|t' y_true]].
      * cbn. split; [discriminate | intros (_ & _ & H); now elim H].
      * now elim L.
      * cbn [bind]. rewrite length_map, Nat.eqb_refl. cbn [bind].
        split; [discriminate | intros (_ & _ & H); now elim H].
    + destruct y_true as [|t [|t' y_true]].
      * cbn. split; [intros _; repeat split; discriminate | reflexivity].
      * cbn [bind]. cbn [map length Nat.eqb]. cbn [bind].
        split; [discriminate | intros (_ & H & _); now elim H].
      * cbn [bind]. split; [intros _|reflexivity].
        split; [exact L|]. split; discriminate.
Qed.

Section CountFacts.
Open Scope Z_scope.

Lemma shr_1_halves (r : shr_record) :
  0 <= shr_m r -> shr_m (shr_1 r) = shr_m r / 2.
Proof.
  destruct r as [m b s]. cbn [shr_m]. intros H.
  destruct m as [|p|p]; [reflexivity| |lia].
  destruct p as [p|p|]; cbn [shr_1 shr_m].
  - rewrite Pos2Z.inj_xI. apply Z.div_unique with (r := 1); lia.
  - rewrite Pos2Z.inj_xO. apply Z.div_unique with (r := 0); lia.
  - reflexivity.
Qed.

Lemma iter_shr_1 (p : positive) (r : shr_record) :
  0 <= shr_m r -> shr_m (iter_pos shr_1 p r) = shr_m r / 2 ^ Z.pos p.
Proof.
  revert r. induction p as [p IH|p IH|]; intros r H; cbn [iter_pos];
    try (assert (Hp : 0 < 2 ^ Z.pos p) by (apply Z.pow_pos_nonneg; lia)).
  - assert (H1 : 0 <= shr_m (shr_1 r))
      by (rewrite shr_1_halves by assumption; apply Z.div_pos; lia).
    assert (H2 : 0 <= shr_m (iter_pos shr_1 p (shr_1 r)))
      by (rewrite IH by assumption; apply Z.div_pos; [lia | apply Z.pow_pos_nonneg; lia]).
    rewrite IH, IH, shr_1_halves by assumption.
    rewrite !Z.div_div by lia.
    f_equal.
    assert (Hx : Z.pos p~1 = 1 + Z.pos p + Z.pos p) by lia.
    rewrite Hx, !Z.pow_add_r by lia. now rewrite Z.pow_1_r, Z.mul_assoc.
  - assert (H2 : 0 <= shr_m (iter_pos shr_1 p r))
      by (rewrite IH by assumption; apply Z.div_pos; [lia | apply Z.pow_pos_nonneg; lia]).
    rewrite IH, IH by assumption.
    rewrite Z.div_div by lia.
    f_equal.
    assert (Hx : Z.pos p~0 = Z.pos p + Z.pos p) by lia.
    now rewrite Hx, Z.pow_add_r by lia.
  - rewrite shr_1_halves by assumption. now rewrite Z.pow_1_r.
Qed.

Lemma digits2_pos_bound (p : positive) : 2 ^ (Z.pos (digits2_pos p) - 1) <= Z.pos p.
Proof.
  assert (Hs : forall d : positive, 2 ^ (Z.pos (Pos.succ d) - 1) = 2 * 2 ^ (Z.pos d - 1)).
  { intros d. replace (Z.pos (Pos.succ d) - 1) with (1 + (Z.pos d - 1)) by lia.
    rewrite Z.pow_add_r by lia. now rewrite Z.pow_1_r. }
  induction p as [p IH|p IH|]; cbn [digits2_pos].
  - rewrite Hs. lia.
  - rewrite Hs. lia.
  - reflexivity.
Qed.

(** Above the smallest exponent, the shift to the format keeps a positive
    mantissa positive. *)
Lemma shr_fexp_positive (p : positive) (e : Z) (l : location) mrs e' :
  shr_fexp prec emax (Z.pos p) e l = (mrs, e') ->
  emin <= e -> 0 < shr_m mrs /\ emin <= e'.
Proof.
  unfold shr_fexp, shr, fexp. cbn [Zdigits2].
  set (d := Z.pos (digits2_pos p)).
  assert (Hm : shr_m (shr_record_of_loc (Z.pos p) l) = Z.pos p)
    by (destruct l as [|[| |]]; reflexivity).
  intros H He.
  destruct (Z.max (d + e - prec) emin - e) as [|n|n] eqn:En.
  - injection H as <- <-. rewrite Hm. lia.
  - injection H as <- <-. rewrite iter_shr_1 by (rewrite Hm; lia). rewrite Hm.
    split; [|lia].
    assert (Hn : Z.pos n <= d - 1) by (unfold prec in *; lia).
    pose proof (digits2_pos_bound p) as Hb. fold d in Hb.
    assert (H2 : 2 ^ Z.pos n <= 2 ^ (d - 1)) by (apply Z.pow_le_mono_r; lia).
    assert (0 < 2 ^ Z.pos n) by (apply Z.pow_pos_nonneg; lia).
    apply Z.div_str_pos. lia.
  - injection H as <- <-. rewrite Hm. lia.
Qed.

Lemma round_nearest_even_positive (m : Z) (l : location) :
  0 < m -> 0 < round_nearest_even m l.
Proof.
  intros H. destruct l as [|[| |]]; cbn [round_nearest_even]; try lia.
  destruct (Z.even m); lia.
Qed.

Lemma binary_round_aux_positive (p : positive) (e : Z) (l : location) :
  emin <= e ->
  match binary_round_aux prec emax false (Z.pos p) e l with
  | S754_finite false _ _ | S754_infinity false => True
  | _ => False
  end.
Proof.
  intros He. unfold binary_round_aux.
  destruct (shr_fexp prec emax (Z.pos p) e l) as [mrs' e'] eqn:E1.
  destruct (shr_fexp_positive _ _ _ _ _ E1 He) as [Hm He'].
  pose proof (round_nearest_even_positive _ (loc_of_shr_record mrs') Hm) as Hr.
  destruct (round_nearest_even (shr_m mrs') (loc_of_shr_record mrs')) as [|q|q];
    try lia.
  destruct (shr_fexp prec emax (Z.pos q) e' loc_Exact) as [mrs'' e''] eqn:E2.
  destruct (shr_fexp_positive _ _ _ _ _ E2 He') as [Hm' _].
  destruct (shr_m mrs'') as [|q'|q']; try lia.
  now destruct (e'' <=? emax - prec).
Qed.

(** The float of a count between 1 and 2^63 - 1 is a positive number. *)
Lemma of_count_positive (n : nat) :
  (0 < n)%nat -> Z.of_nat n < 2 ^ 63 ->
  match Prim2SF (Np.of_count n) with
  | S754_finite false _ _ | S754_infinity false => True
  | _ => False
  end.
Proof.
  intros Hn Hb. unfold Np.of_count. rewrite of_uint63_spec, Uint63.of_Z_spec.
  rewrite Z.mod_small by (change Uint63.wB with (2 ^ 63); lia).
  destruct (Z.of_nat n) as [|p|p] eqn:E; try lia.
  unfold binary_normalize, binary_round.
  destruct (shl_align p 0 (fexp prec emax (Z.pos (digits2_pos p) + 0))) as [mz ez] eqn:S.
  apply binary_round_aux_positive.
  unfold shl_align in S.
  destruct (fexp prec emax (Z.pos (digits2_pos p) + 0) - 0) eqn:F;
    injection S as <- <-; unfold fexp, emin, prec, emax in *; lia.
Qed.

End CountFacts.

Section PerfectFacts.
Open Scope float_scope.

Lemma regular_of_finite_nonzero (x : float) :
  Np.isfinite x = true -> (x =? 0) = false -> SFregular (Prim2SF x) = true.
Proof.
  unfold Np.isfinite. rewrite is_finite_spec, eqb_spec. unfold nonfinite, SFeqb.
  change (Prim2SF 0) with (S754_zero false).
  destruct (Prim2SF x) as [s|s| |s m e]; cbn; try discriminate; reflexivity.
Qed.

Lemma sub_self (x : float) : SFregular (Prim2SF x) = true -> x - x = 0.
Proof.
  intros H. apply Prim2SF_inj. rewrite sub_spec.
  change (Prim2SF 0) with (S754_zero false).
  destruct (Prim2SF x) as [s|s| |s m e]; try discriminate H.
  unfold SF64sub, SFsub. now rewrite Z.sub_diag.
Qed.

Lemma zero_over_regular (x : float) : SFregular (Prim2SF x) = true -> abs (0 / x) = 0.
Proof.
  intros H. apply Prim2SF_inj. rewrite abs_spec, div_spec.
  change (Prim2SF 0) with (S754_zero false).
  destruct (Prim2SF x) as [s|s| |s m e]; try discriminate H. reflexivity.
Qed.

Lemma zero_over_count (n : nat) :
  (0 < n)%nat -> (Z.of_nat n < 2 ^ 63)%Z -> 0 / Np.of_count n = 0.
Proof.
  intros Hn Hb. apply Prim2SF_inj. rewrite div_spec.
  pose proof (of_count_positive n Hn Hb) as H.
  change (Prim2SF 0) with (S754_zero false).
  destruct (Prim2SF (Np.of_count n)) as [s|s| |s m e]; try (now elim H);
    destruct s; try (now elim H); reflexivity.
Qed.

Lemma fold_add_zeros (l : list float) :
  Forall (fun x => x = 0) l -> fold_left PrimFloat.add l 0 = 0.
Proof. induction 1 as [|x l -> _ IH]; [reflexivity | exact IH]. Qed.

Lemma sum_zeros (l : list float) : Forall (fun x => x = 0) l -> l <> [] -> Np.sum l = 0.
Proof.
  intros H Hne. unfold Np.sum. destruct H as [|x l -> H]; [now elim Hne|].
  cbn [fold_left]. now apply fold_add_zeros.
Qed.

Lemma mean_zeros (l : list float) :
  Forall (fun x => x = 0) l -> l <> [] -> (Z.of_nat (length l) < 2 ^ 63)%Z ->
  Np.mean l = 0.
Proof.
  intros H Hne Hb. unfold Np.mean. rewrite (sum_zeros _ H Hne).
  apply zero_over_count; [|exact Hb]. destruct l; [now elim Hne | cbn; lia].
Qed.

Lemma combine_diagonal {A B : Type} (g : A * A -> B) (l : list A) :
  map g (combine l l) = map (fun x => g (x, x)) l.
Proof. induction l as [|x l IH]; [reflexivity|]. cbn. now rewrite IH. Qed.

Lemma Forall_map_zero {A : Type} (g : A -> float) (P : A -> Prop) (l : list A) :
  (forall x, P x -> g x = 0) -> Forall P l -> Forall (fun y => y = 0) (map g l).
Proof.
  intros Hg H. apply Forall_map. revert H. apply Forall_impl. exact Hg.
Qed.

End PerfectFacts.

(** X14.  A prediction equal to the actual values has the best figures: for
    a vector of at least two finite numbers, none of them zero, scored against
    itself, MAPE, MAE, MSE and RMSE are exactly 0 and R2 is exactly 1. *)
Theorem perfect_prediction_has_best_figures (real : list float) :
  (2 <= length real)%nat -> (Z.of_nat (length real) < 2 ^ 63)%Z ->
  Forall (fun x => Np.isfinite x = true) real ->
  Forall (fun x => (x =? 0)%float = false) real ->
  print_prediction_kpis real real = Returns (mkScorecard 0 1 0 0 0).
Proof.
  intros Hlen Hb Hfin Hnz.
  assert (Hne : real <> []) by (intros ->; cbn in Hlen; lia).
  assert (Hreg : Forall (fun x => SFregular (Prim2SF x) = true) real).
  { apply Forall_forall. intros x Hx. rewrite Forall_forall in Hfin, Hnz.
    apply regular_of_finite_nonzero; auto. }
  assert (Hc : Sk.check_reg_targets real real = Returns tt).
  { unfold Sk.check_reg_targets. rewrite Nat.eqb_refl. cbn [negb].
    rewrite (proj2 (check_array_strict real) (conj Hne Hfin)). reflexivity. }
  assert (Hmapne : forall g : float -> float, map g real <> []).
  { intros g E. apply map_eq_nil in E. now elim Hne. }
  assert (Hmaplen : forall g : float -> float,
             (Z.of_nat (length (map g real)) < 2 ^ 63)%Z)
    by (intros g; now rewrite length_map).
  assert (Hmape : Np.mean (map (fun '(t, p) => abs ((t - p) / t)%float)
                               (combine real real)) = 0%float).
  { rewrite combine_diagonal. apply mean_zeros; auto.
    refine (Forall_map_zero _ _ _ _ Hreg). intros x H. cbn beta in *.
    rewrite (sub_self _ H). now apply zero_over_regular. }
  assert (Hdiff : Sk.elementwise PrimFloat.sub real real = map (fun _ => 0%float) real).
  { unfold Sk.elementwise. rewrite combine_diagonal.
    apply map_ext_in. intros x Hx. rewrite Forall_forall in Hreg.
    now apply sub_self, Hreg. }
  assert (Hz : forall g : float -> float, g 0%float = 0%float ->
             Forall (fun y => y = 0%float) (map g (map (fun _ => 0%float) real))).
  { intros g Hg. rewrite map_map. apply Forall_forall. intros y Hy.
    apply in_map_iff in Hy. destruct Hy as (x & <- & _). exact Hg. }
  assert (Hmae : Np.mean (Np.abs (Sk.elementwise PrimFloat.sub real real)) = 0%float).
  { rewrite Hdiff. unfold Np.abs. apply mean_zeros.
    - now apply Hz.
    - rewrite map_map. apply Hmapne.
    - now rewrite !length_map. }
  assert (Hsq : Forall (fun y => y = 0%float)
                       (Np.square (Sk.elementwise PrimFloat.sub real real))).
  { rewrite Hdiff. unfold Np.square. now apply Hz. }
  assert (Hsqne : Np.square (Sk.elementwise PrimFloat.sub real real) <> []).
  { rewrite Hdiff. unfold Np.square. rewrite map_map. apply Hmapne. }
  assert (Hmse : Np.mean (Np.square (Sk.elementwise PrimFloat.sub real real)) = 0%float).
  { apply mean_zeros; auto. rewrite Hdiff. unfold Np.square. now rewrite !length_map. }
  unfold print_prediction_kpis.
  rewrite (ratio_of_equal_lengths _ _ eq_refl), Hmape. cbn [bind].
  unfold Sk.r2_score, Sk.mean_absolute_error, Sk.mean_squared_error.
  rewrite Hc. cbn [bind].
  assert (L2 : (length real <? 2)%nat = false) by (apply Nat.ltb_ge; lia).
  rewrite L2, (sum_zeros _ Hsq Hsqne), Hmae, Hmse. reflexivity.
Qed.

Lemma perfect_prediction_has_best_figures_witness :
  ((2 <= length [1; 2; 3]%float)%nat
   /\ (Z.of_nat (length [1; 2; 3]%float) < 2 ^ 63)%Z
   /\ Forall (fun x => Np.isfinite x = true) [1; 2; 3]%float
   /\ Forall (fun x => (x =? 0)%float = false) [1; 2; 3]%float)
  /\ print_prediction_kpis [1; 2; 3]%float [1; 2; 3]%float
     = Returns (mkScorecard 0 1 0 0 0).
Proof.
  assert (H1 : (2 <= length [1; 2; 3]%float)%nat) by (cbn; lia).
  assert (H2 : (Z.of_nat (length [1; 2; 3]%float) < 2 ^ 63)%Z) by reflexivity.
  assert (H3 : Forall (fun x => Np.isfinite x = true) [1; 2; 3]%float)
    by (repeat constructor).
  assert (H4 : Forall (fun x => (x =? 0)%float = false) [1; 2; 3]%float)
    by (repeat constructor).
  split; [repeat split; assumption|].
  exact (perfect_prediction_has_best_figures [1; 2; 3]%float H1 H2 H3 H4).
Defined.
